(** * Span conversion of the OpenTelemetry -> Datadog trace exporter

    A shallow embedding of [span.go]: the status table, [convertSpan] and the
    attribute dispatch [setTag] / [setMetric] / [setStringTag] / [setError],
    followed by the properties of the conversion.

    Go maps are [gmap]s, the record that the Go code mutates through a pointer
    is threaded explicitly, [float64] is Rocq's primitive binary64 float and
    fixed-width integers are [Z] (or [N]) with the wrap-around written out
    where the code can overflow.  The width of [int] is a parameter of the
    conversion, [strconv.Build]: the theorems hold on a 32-bit and on a
    64-bit build. *)

From Stdlib Require Import ZArith String Floats.
From stdpp Require Import gmap strings pretty.

Open Scope Z_scope.
Open Scope string_scope.

(** ** External vocabulary *)

(** Constants of [gopkg.in/DataDog/dd-trace-go.v1/ddtrace/ext]. *)
Module ext.
Definition Error : string := "error".
Definition ErrorMsg : string := "error.msg".
Definition ErrorType : string := "error.type".
Definition ServiceName : string := "service.name".
Definition ResourceName : string := "resource.name".
Definition SpanType : string := "span.type".
Definition SamplingPriority : string := "sampling.priority".
Definition AnalyticsEvent : string := "analytics.event".
Definition EventSampleRate : string := "_dd1.sr.eausr".
Definition PriorityUserReject : Z := -1.
End ext.

(** Constants of [net/http] used by the status table. *)
Module http.
Definition StatusOK : Z := 200.
Definition StatusBadRequest : Z := 400.
Definition StatusUnauthorized : Z := 401.
Definition StatusForbidden : Z := 403.
Definition StatusNotFound : Z := 404.
Definition StatusConflict : Z := 409.
Definition StatusTooManyRequests : Z := 429.
Definition StatusInternalServerError : Z := 500.
Definition StatusNotImplemented : Z := 501.
Definition StatusServiceUnavailable : Z := 503.
Definition StatusGatewayTimeout : Z := 504.
End http.

(** [google.golang.org/grpc/codes]: [Code] is a [uint32]. *)
Module codes.
Definition Code := N.
Definition OK : Code := 0%N.
Definition Canceled : Code := 1%N.
Definition Unknown : Code := 2%N.
Definition InvalidArgument : Code := 3%N.
Definition DeadlineExceeded : Code := 4%N.
Definition NotFound : Code := 5%N.
Definition AlreadyExists : Code := 6%N.
Definition PermissionDenied : Code := 7%N.
Definition ResourceExhausted : Code := 8%N.
Definition FailedPrecondition : Code := 9%N.
Definition Aborted : Code := 10%N.
Definition OutOfRange : Code := 11%N.
Definition Unimplemented : Code := 12%N.
Definition Internal : Code := 13%N.
Definition Unavailable : Code := 14%N.
Definition DataLoss : Code := 15%N.
Definition Unauthenticated : Code := 16%N.
End codes.

(** [strconv]: decimal rendering of a signed integer, and [IntSize], the
    size in bits of an [int], which the build fixes at 32 or 64. *)
Module strconv.
Inductive Build := Build32 | Build64.
Existing Class Build.
Definition IntSize {b : Build} : Z :=
  match b with Build32 => 32 | Build64 => 64 end.
Definition FormatInt (i : Z) : string := pretty i.
Definition Itoa (i : Z) : string := pretty i.
End strconv.

(** The conversion [int(x)] of an integer value: two's complement
    wrap-around to the width of [int] on the build. *)
Definition int_ {b : strconv.Build} (z : Z) : Z :=
  (z + 2 ^ (strconv.IntSize - 1)) mod 2 ^ strconv.IntSize
  - 2 ^ (strconv.IntSize - 1).

(** [go.opentelemetry.io/otel/label]: a value carries an explicit type
    discriminant.  Integer payloads are the mathematical value of the
    fixed-width integer; a [FLOAT32] payload is kept as the binary64 float it
    widens to (the widening [float64(float32)] is exact); an [ARRAY] payload is
    kept as its [%v] rendering, the only thing the exporter asks of it. *)
Module label.
Inductive Value :=
| INVALID
| BOOL (b : bool)
| INT32 (i : Z)
| INT64 (i : Z)
| UINT32 (i : Z)
| UINT64 (i : Z)
| FLOAT32 (f : float)
| FLOAT64 (f : float)
| STRING (s : string)
| ARRAY (rendered : string).

(** The field [Value] of the Go struct is [Value_] here, [Value] being the
    name of its type. *)
Record KeyValue := { Key : string; Value_ : Value }.
End label.

(** [go.opentelemetry.io/otel/api/trace]. *)
Module trace.
Inductive SpanKind :=
| SpanKindUnspecified
| SpanKindInternal
| SpanKindServer
| SpanKindClient
| SpanKindProducer
| SpanKindConsumer.

(** [SpanID.IsValid]: not the all-zero identifier. *)
Definition IsValid (id : list Z) : bool :=
  negb (forallb (Z.eqb 0) id).
End trace.

(** [encoding/binary]: [BigEndian.Uint64] reads the first eight bytes. *)
Module binary.
Definition Uint64 (b : list Z) : Z :=
  fold_left (fun acc x => Z.lor (Z.shiftl acc 8) x) (take 8 b) 0.
End binary.

(** [go.opentelemetry.io/otel/sdk/export/trace]: the fields of [SpanData]
    that [convertSpan] reads.  Times are kept as their [UnixNano] value, the
    span context is flattened into its two identifiers. *)
Module export.
Record SpanData := {
  TraceID : list Z;
  SpanID : list Z;
  ParentSpanID : list Z;
  SpanKind : trace.SpanKind;
  Name : string;
  StartTime : Z;
  EndTime : Z;
  Attributes : list label.KeyValue;
  StatusCode : codes.Code;
  StatusMessage : string
}.
End export.

(** Conversion of an integer to [float64]: round to nearest, ties to even. *)
Definition float64 (z : Z) : float :=
  SF2Prim (binary_normalize 53 1024 z 0 false).

(** Two's complement wrap-around of [int64] arithmetic. *)
Definition wrap64 (z : Z) : Z :=
  (z + 2 ^ 63) mod 2 ^ 64 - 2 ^ 63.

(** ** Data model *)

(** Modelled from the spec: the declaration of [ddSpan] is not part of
    [span.go]; the fields are those of the output record of the data model
    and of the literals in [span_test.go].  [Type] being reserved, the field
    of that name is [Type_]. *)
Record ddSpan := {
  SpanID : Z;
  TraceID : Z;
  ParentID : Z;
  Name : string;
  Service : string;
  Resource : string;
  Type_ : string;
  Start : Z;
  Duration : Z;
  Error : Z;
  Metrics : gmap string float;
  Meta : gmap string string
}.

(** Modelled from the spec: the declaration of [Options] is not part of
    [span.go]; [convertSpan] reads the default service name (the field
    [Service], here [opt_Service]) and the ordered global tags. *)
Record Options := {
  opt_Service : string;
  GlobalTags : list label.KeyValue
}.

Record traceExporter := { opts : Options }.

(** Field assignments [s.F = v] on the record behind the pointer. *)
Definition set_Name (v : string) (s : ddSpan) : ddSpan :=
  {| SpanID := SpanID s; TraceID := TraceID s;
     ParentID := ParentID s; Name := v; Service := Service s;
     Resource := Resource s; Type_ := Type_ s; Start := Start s;
     Duration := Duration s; Error := Error s;
     Metrics := Metrics s; Meta := Meta s |}.

Definition set_Service (v : string) (s : ddSpan) : ddSpan :=
  {| SpanID := SpanID s; TraceID := TraceID s;
     ParentID := ParentID s; Name := Name s; Service := v;
     Resource := Resource s; Type_ := Type_ s; Start := Start s;
     Duration := Duration s; Error := Error s;
     Metrics := Metrics s; Meta := Meta s |}.

Definition set_Resource (v : string) (s : ddSpan) : ddSpan :=
  {| SpanID := SpanID s; TraceID := TraceID s;
     ParentID := ParentID s; Name := Name s;
     Service := Service s; Resource := v; Type_ := Type_ s;
     Start := Start s; Duration := Duration s;
     Error := Error s; Metrics := Metrics s; Meta := Meta s |}.

Definition set_Type (v : string) (s : ddSpan) : ddSpan :=
  {| SpanID := SpanID s; TraceID := TraceID s;
     ParentID := ParentID s; Name := Name s;
     Service := Service s; Resource := Resource s; Type_ := v;
     Start := Start s; Duration := Duration s;
     Error := Error s; Metrics := Metrics s; Meta := Meta s |}.

Definition set_ParentID (v : Z) (s : ddSpan) : ddSpan :=
  {| SpanID := SpanID s; TraceID := TraceID s; ParentID := v;
     Name := Name s; Service := Service s;
     Resource := Resource s; Type_ := Type_ s; Start := Start s;
     Duration := Duration s; Error := Error s;
     Metrics := Metrics s; Meta := Meta s |}.

Definition set_Error (v : Z) (s : ddSpan) : ddSpan :=
  {| SpanID := SpanID s; TraceID := TraceID s;
     ParentID := ParentID s; Name := Name s;
     Service := Service s; Resource := Resource s;
     Type_ := Type_ s; Start := Start s;
     Duration := Duration s; Error := v; Metrics := Metrics s;
     Meta := Meta s |}.

(** [s.Metrics[k] = v] *)
Definition put_Metrics (k : string) (v : float) (s : ddSpan) : ddSpan :=
  {| SpanID := SpanID s; TraceID := TraceID s;
     ParentID := ParentID s; Name := Name s;
     Service := Service s; Resource := Resource s;
     Type_ := Type_ s; Start := Start s;
     Duration := Duration s; Error := Error s;
     Metrics := <[k := v]> (Metrics s); Meta := Meta s |}.

(** [s.Meta[k] = v] *)
Definition put_Meta (k : string) (v : string) (s : ddSpan) : ddSpan :=
  {| SpanID := SpanID s; TraceID := TraceID s;
     ParentID := ParentID s; Name := Name s;
     Service := Service s; Resource := Resource s;
     Type_ := Type_ s; Start := Start s;
     Duration := Duration s; Error := Error s;
     Metrics := Metrics s; Meta := <[k := v]> (Meta s) |}.

(** ** The status table *)

(** [codeDetails] specifies information about a trace status code. *)
Record codeDetails := {
  message : string;
  status : Z
}.

Definition statusCodes : gmap codes.Code codeDetails :=
  list_to_map [
    (codes.OK, {| message := "OK"; status := http.StatusOK |});
    (codes.Canceled, {| message := "CANCELLED"; status := 499 |});
    (codes.Unknown,
      {| message := "UNKNOWN"; status := http.StatusInternalServerError |});
    (codes.InvalidArgument,
      {| message := "INVALID_ARGUMENT"; status := http.StatusBadRequest |});
    (codes.DeadlineExceeded,
      {| message := "DEADLINE_EXCEEDED"; status := http.StatusGatewayTimeout |});
    (codes.NotFound,
      {| message := "NOT_FOUND"; status := http.StatusNotFound |});
    (codes.AlreadyExists,
      {| message := "ALREADY_EXISTS"; status := http.StatusConflict |});
    (codes.PermissionDenied,
      {| message := "PERMISSION_DENIED"; status := http.StatusForbidden |});
    (codes.ResourceExhausted,
      {| message := "RESOURCE_EXHAUSTED";
         status := http.StatusTooManyRequests |});
    (codes.FailedPrecondition,
      {| message := "FAILED_PRECONDITION"; status := http.StatusBadRequest |});
    (codes.Aborted, {| message := "ABORTED"; status := http.StatusConflict |});
    (codes.OutOfRange,
      {| message := "OUT_OF_RANGE"; status := http.StatusBadRequest |});
    (codes.Unimplemented,
      {| message := "UNIMPLEMENTED"; status := http.StatusNotImplemented |});
    (codes.Internal,
      {| message := "INTERNAL"; status := http.StatusInternalServerError |});
    (codes.Unavailable,
      {| message := "UNAVAILABLE"; status := http.StatusServiceUnavailable |});
    (codes.DataLoss,
      {| message := "DATA_LOSS"; status := http.StatusNotImplemented |});
    (codes.Unauthenticated,
      {| message := "UNAUTHENTICATED"; status := http.StatusUnauthorized |})
  ].

(** The lookup with its fallback, as [convertSpan] performs it:
    [code, ok := statusCodes[s.StatusCode]; if !ok { code = ... }]. *)
Definition resolveStatus (c : codes.Code) : codeDetails :=
  match statusCodes !! c with
  | Some code => code
  | None =>
      {| message := "ERR_CODE_" +:+ strconv.FormatInt (Z.of_N c);
         status := http.StatusInternalServerError |}
  end.

(** ** Attribute dispatch *)

Definition keySamplingPriority : string := "_sampling_priority_v1".
Definition keyStatusDescription : string := "opentelemetry.status_description".
Definition keyStatusCode : string := "opentelemetry.status_code".
Definition keyStatus : string := "opentelemetry.status".
Definition keySpanName : string := "span.name".
Definition keySamplingPriorityRate : string := "_sampling_priority_rate_v1".

Definition setMetric (s : ddSpan) (key : string) (v : float) : ddSpan :=
  if decide (key = ext.SamplingPriority) then put_Metrics keySamplingPriority v s
  else put_Metrics key v s.

Definition setStringTag (s : ddSpan) (key v : string) : ddSpan :=
  if decide (key = ext.ServiceName) then set_Service v s
  else if decide (key = ext.ResourceName) then set_Resource v s
  else if decide (key = ext.SpanType) then set_Type v s
  else if decide (key = ext.AnalyticsEvent) then
    if decide (v ≠ "false") then setMetric s ext.EventSampleRate 1%float
    else setMetric s ext.EventSampleRate 0%float
  else if decide (key = keySpanName) then set_Name v s
  else put_Meta key v s.

Definition setError (s : ddSpan) (val : label.Value) : ddSpan :=
  match val with
  | label.STRING str => put_Meta ext.ErrorMsg str (set_Error 1 s)
  | label.BOOL b => if b then set_Error 1 s else set_Error 0 s
  | label.INT32 i => if decide (i > 0) then set_Error 1 s else set_Error 0 s
  | label.INT64 i => if decide (i > 0) then set_Error 1 s else set_Error 0 s
  | label.UINT32 i => if decide (i > 0) then set_Error 1 s else set_Error 0 s
  | label.UINT64 i => if decide (i > 0) then set_Error 1 s else set_Error 0 s
  | label.INVALID => set_Error 0 s
  | _ => set_Error 1 s
  end.

Definition setTag (s : ddSpan) (key : string) (val : label.Value) : ddSpan :=
  if decide (key = ext.Error) then setError s val
  else
    match val with
    | label.STRING str => setStringTag s key str
    | label.BOOL b =>
        if b then setStringTag s key "true" else setStringTag s key "false"
    | label.FLOAT32 f => setMetric s key f
    | label.FLOAT64 f => setMetric s key f
    | label.INT32 i => setMetric s key (float64 i)
    | label.INT64 i => setMetric s key (float64 i)
    | label.UINT32 i => setMetric s key (float64 i)
    | label.UINT64 i => setMetric s key (float64 i)
    | label.ARRAY rendered => setStringTag s key rendered
    | label.INVALID => s
    end.

(** ** The converter *)

(** [for _, attr := range attrs { setTag(span, string(attr.Key), attr.Value) }] *)
Definition setTags (attrs : list label.KeyValue) (span : ddSpan) : ddSpan :=
  fold_left (fun sp attr => setTag sp (label.Key attr) (label.Value_ attr))
            attrs span.

(** The record literal and the conditional parent identifier. *)
Definition newSpan (e : traceExporter) (s : export.SpanData) : ddSpan :=
  let startNano := export.StartTime s in
  let span :=
    {| TraceID := binary.Uint64 (drop 8 (export.TraceID s));
       SpanID := binary.Uint64 (export.SpanID s);
       ParentID := 0;
       Name := "opentelemetry";
       Resource := export.Name s;
       Service := opt_Service (opts e);
       Type_ := "";
       Start := startNano;
       Duration := wrap64 (export.EndTime s - startNano);
       Error := 0;
       Metrics := ∅;
       Meta := ∅ |} in
  if trace.IsValid (export.ParentSpanID s)
  then set_ParentID (binary.Uint64 (export.ParentSpanID s)) span
  else span.

(** [switch s.SpanKind { ... }], with the [fallthrough] of the server case
    into the default case. *)
Definition kindStep (kind : trace.SpanKind) (code : codeDetails)
    (span : ddSpan) : ddSpan :=
  let dflt (span : ddSpan) :=
    if decide (status code ÷ 100 = 5) then set_Error 1 span else span in
  match kind with
  | trace.SpanKindClient =>
      let span := set_Type "client" span in
      if decide (status code ÷ 100 = 4) then set_Error 1 span else span
  | trace.SpanKindServer => dflt (set_Type "server" span)
  | _ => dflt span
  end.

(** [if span.Error == 1 { ... }] *)
Definition errorMetaStep (s : export.SpanData) (code : codeDetails)
    (span : ddSpan) : ddSpan :=
  if decide (Error span = 1) then
    let span := put_Meta ext.ErrorType (message code) span in
    if decide (export.StatusMessage s ≠ "")
    then put_Meta ext.ErrorMsg (export.StatusMessage s) span
    else span
  else span.

(** The three status tags.  The status code, a [uint32], is converted to
    [int] before it is rendered: on a 32-bit build a code from [2 ^ 31] on
    wraps to a negative number. *)
Definition statusMetaStep {b : strconv.Build} (s : export.SpanData)
    (code : codeDetails) (span : ddSpan) : ddSpan :=
  let span :=
    put_Meta keyStatusCode
      (strconv.Itoa (int_ (Z.of_N (export.StatusCode s)))) span in
  let span := put_Meta keyStatus (message code) span in
  if decide (export.StatusMessage s ≠ "")
  then put_Meta keyStatusDescription (export.StatusMessage s) span
  else span.

(** Everything [convertSpan] does before it ranges over the attributes. *)
Definition statusStep {b : strconv.Build} (e : traceExporter)
    (s : export.SpanData) : ddSpan :=
  let span := newSpan e s in
  let code := resolveStatus (export.StatusCode s) in
  let span := kindStep (export.SpanKind s) code span in
  let span := errorMetaStep s code span in
  statusMetaStep s code span.

(** [convertSpan] takes an OpenTelemetry span and returns a Datadog span. *)
Definition convertSpan {b : strconv.Build} (e : traceExporter)
    (s : export.SpanData) : ddSpan :=
  let span := statusStep e s in
  let span := setTags (GlobalTags (opts e)) span in
  setTags (export.Attributes s) span.

(** The closed examples of this development run on a 64-bit build, unless
    they name the other one. *)
#[global] Existing Instance strconv.Build64.

(** ** The conversion table of [span_test.go]

    The embedding is run on the spans of [spanPairs]; [testStartTime] is
    [time.Now()] in the test, any instant does. *)
Module span_test.
Definition testStartTime : Z := 1600000000000000000.
Definition testEndTime : Z := testStartTime + 10 * 1000000000.

Definition e : traceExporter :=
  {| opts := {| opt_Service := "my-service"; GlobalTags := [] |} |}.

Definition oc (parent : list Z) (kind : trace.SpanKind) (name : string)
    (attrs : list label.KeyValue) (code : codes.Code) (msg : string)
    : export.SpanData :=
  {| export.TraceID := [1; 2; 3; 4; 5; 6; 7; 8; 9; 10; 11; 12; 13; 14; 15; 16];
     export.SpanID := [1; 2; 3; 4; 5; 6; 7; 8];
     export.ParentSpanID := parent;
     export.SpanKind := kind;
     export.Name := name;
     export.StartTime := testStartTime;
     export.EndTime := testEndTime;
     export.Attributes := attrs;
     export.StatusCode := code;
     export.StatusMessage := msg |}.

Definition dd (parent : Z) (type name resource service : string) (err : Z)
    (metrics : gmap string float) (meta : gmap string string) : ddSpan :=
  {| TraceID := 651345242494996240;
     SpanID := 72623859790382856;
     ParentID := parent;
     Type_ := type;
     Name := name;
     Resource := resource;
     Start := testStartTime;
     Duration := 10000000000;
     Error := err;
     Service := service;
     Metrics := metrics;
     Meta := meta |}.

Definition root_oc : export.SpanData :=
  oc (replicate 8 0) trace.SpanKindClient "/a/b"
     [ {| label.Key := "str"; label.Value_ := label.STRING "abc" |};
       {| label.Key := "bool"; label.Value_ := label.BOOL true |};
       {| label.Key := "int64"; label.Value_ := label.INT64 1 |} ]
     codes.OK "status-msg".

Definition tags_oc : export.SpanData :=
  oc (replicate 8 0) trace.SpanKindServer "/a/b"
     [ {| label.Key := ext.Error; label.Value_ := label.BOOL true |};
       {| label.Key := ext.ServiceName;
          label.Value_ := label.STRING "other-service" |};
       {| label.Key := ext.ResourceName;
          label.Value_ := label.STRING "other-resource" |};
       {| label.Key := ext.SpanType;
          label.Value_ := label.STRING "other-type" |};
       {| label.Key := ext.SamplingPriority;
          label.Value_ := label.INT64 ext.PriorityUserReject |} ]
     codes.OK "".

Definition status_oc (kind : trace.SpanKind) (code : codes.Code)
    : export.SpanData :=
  oc (replicate 8 0) kind "/a/b" [] code "status-msg".
End span_test.

(** ** Reading the rules of the specification *)

(** The Error Rule in the words of the specification: the flag as a function
    of the value alone. *)
Definition spec_errorFlag (val : label.Value) : Z :=
  match val with
  | label.STRING _ => 1
  | label.BOOL b => if b then 1 else 0
  | label.INT32 i | label.INT64 i | label.UINT32 i | label.UINT64 i =>
      if (0 <? i)%Z then 1 else 0
  | label.INVALID => 0
  | label.FLOAT32 _ | label.FLOAT64 _ | label.ARRAY _ => 1
  end.

(** The [float64] a value of a numeric type is converted to by [setTag];
    [None] for the other types. *)
Definition numericValue (val : label.Value) : option float :=
  match val with
  | label.FLOAT32 f | label.FLOAT64 f => Some f
  | label.INT32 i | label.INT64 i | label.UINT32 i | label.UINT64 i =>
      Some (float64 i)
  | _ => None
  end.

(** The string a value of a String Rule type is rendered to by [setTag];
    [None] for the other types. *)
Definition stringValue (val : label.Value) : option string :=
  match val with
  | label.STRING str => Some str
  | label.BOOL b => Some (if b then "true" else "false")
  | label.ARRAY rendered => Some rendered
  | _ => None
  end.

(** ** Blind writes

    No application of the dispatch rule reads the record it updates: each one
    is a store of constants into one or two destinations. *)

(** The record the tests of [span_test.go] start from ([testSpan]): every
    field zero, both maps allocated and empty. *)
Definition testSpan : ddSpan :=
  {| SpanID := 0; TraceID := 0; ParentID := 0; Name := ""; Service := "";
     Resource := ""; Type_ := ""; Start := 0; Duration := 0; Error := 0;
     Metrics := ∅; Meta := ∅ |}.

(** The tags, and the metrics, that applying one attribute writes. *)
Definition tagsWritten (a : label.KeyValue) : gmap string string :=
  Meta (setTag testSpan (label.Key a) (label.Value_ a)).

Definition metricsWritten (a : label.KeyValue) : gmap string float :=
  Metrics (setTag testSpan (label.Key a) (label.Value_ a)).

(** Whether applying the attribute assigns the span type. *)
Definition writesType (a : label.KeyValue) : bool :=
  bool_decide (label.Key a = ext.SpanType) &&
  bool_decide (is_Some (stringValue (label.Value_ a))).

(** Whether applying the attribute assigns the error flag. *)
Definition writesError (a : label.KeyValue) : bool :=
  bool_decide (label.Key a = ext.Error).

(** Two values under one key land in the same destinations: under the error
    key every value assigns the flag, and a string also the error-message
    tag; under any other key both go through the String Rule or both through
    the Metric Rule. *)
Definition sameSlot (key : string) (gv lv : label.Value) : bool :=
  if decide (key = ext.Error) then
    match gv, lv with
    | label.STRING _, label.STRING _ => true
    | label.STRING _, _ => false
    | _, _ => true
    end
  else
    match stringValue gv, stringValue lv with
    | Some _, Some _ => true
    | _, _ =>
        match numericValue gv, numericValue lv with
        | Some _, Some _ => true
        | _, _ => false
        end
    end.

(** The stores an application of the dispatch rule can amount to. *)
Inductive write :=
| WSkip
| WError (z : Z)
| WErrorMsg (v : string)
| WService (v : string)
| WResource (v : string)
| WType (v : string)
| WName (v : string)
| WMetric (k : string) (v : float)
| WMeta (k : string) (v : string).

Definition run (w : write) (s : ddSpan) : ddSpan :=
  match w with
  | WSkip => s
  | WError z => set_Error z s
  | WErrorMsg v => put_Meta ext.ErrorMsg v (set_Error 1 s)
  | WService v => set_Service v s
  | WResource v => set_Resource v s
  | WType v => set_Type v s
  | WName v => set_Name v s
  | WMetric k v => put_Metrics k v s
  | WMeta k v => put_Meta k v s
  end.

(** Reads the store off a goal [∃ w, ∀ s, <update of s> = run w s]. *)
Ltac blind_witness :=
  lazymatch goal with
  | |- ∃ w, ∀ s, put_Meta ext.ErrorMsg ?v (set_Error 1 s) = _ =>
      exists (WErrorMsg v)
  | |- ∃ w, ∀ s, set_Error ?z s = _ => exists (WError z)
  | |- ∃ w, ∀ s, set_Service ?v s = _ => exists (WService v)
  | |- ∃ w, ∀ s, set_Resource ?v s = _ => exists (WResource v)
  | |- ∃ w, ∀ s, set_Type ?v s = _ => exists (WType v)
  | |- ∃ w, ∀ s, set_Name ?v s = _ => exists (WName v)
  | |- ∃ w, ∀ s, put_Metrics ?k ?v s = _ => exists (WMetric k v)
  | |- ∃ w, ∀ s, put_Meta ?k ?v s = _ => exists (WMeta k v)
  | |- ∃ w, ∀ s, s = _ => exists WSkip
  end; intros; reflexivity.

(** ** Inputs beyond the test table *)
Module scenario.
(** A client span with a 4xx-class status that carries [error = false]. *)
Definition client_4xx_error_false : export.SpanData :=
  span_test.oc (replicate 8 0) trace.SpanKindClient "/a/b"
    [ {| label.Key := ext.Error; label.Value_ := label.BOOL false |} ]
    codes.Canceled "status-msg".

(** A server span with a 5xx-class status that carries [error = false]. *)
Definition server_5xx_error_false : export.SpanData :=
  span_test.oc (replicate 8 0) trace.SpanKindServer "/a/b"
    [ {| label.Key := ext.Error; label.Value_ := label.BOOL false |} ]
    codes.Internal "status-msg".

(** An exporter with the global tag [key1 = "value1"] of [TestGlobalTags]. *)
Definition e_key1 : traceExporter :=
  {| opts := {| opt_Service := "my-service";
                GlobalTags := [ {| label.Key := "key1";
                                   label.Value_ := label.STRING "value1" |} ]
             |} |}.

(** A span whose attribute has the key of that global tag, as a number. *)
Definition key1_int64 : export.SpanData :=
  span_test.oc (replicate 8 0) trace.SpanKindClient "/a/b"
    [ {| label.Key := "key1"; label.Value_ := label.INT64 1 |} ]
    codes.OK "".

(** A span whose attribute has the key of that global tag, as a string. *)
Definition key1_string : export.SpanData :=
  span_test.oc (replicate 8 0) trace.SpanKindClient "/a/b"
    [ {| label.Key := "key1"; label.Value_ := label.STRING "local" |} ]
    codes.OK "".
(** A span that ends five nanoseconds before it starts. *)
Definition ends_before_start : export.SpanData :=
  {| export.TraceID := [1; 2; 3; 4; 5; 6; 7; 8; 9; 10; 11; 12; 13; 14; 15; 16];
     export.SpanID := [1; 2; 3; 4; 5; 6; 7; 8];
     export.ParentSpanID := replicate 8 0;
     export.SpanKind := trace.SpanKindInternal;
     export.Name := "/a/b";
     export.StartTime := span_test.testStartTime;
     export.EndTime := span_test.testStartTime - 5;
     export.Attributes := [];
     export.StatusCode := codes.OK;
     export.StatusMessage := "" |}.
(** A span whose trace identifier differs in its bytes 0..7 only from that
    of the spans of the test table. *)
Definition other_high_bytes : export.SpanData :=
  {| export.TraceID :=
       [255; 254; 253; 252; 251; 250; 249; 248; 9; 10; 11; 12; 13; 14; 15; 16];
     export.SpanID := [1; 2; 3; 4; 5; 6; 7; 8];
     export.ParentSpanID := replicate 8 0;
     export.SpanKind := trace.SpanKindClient;
     export.Name := "/a/b";
     export.StartTime := span_test.testStartTime;
     export.EndTime := span_test.testEndTime;
     export.Attributes := [];
     export.StatusCode := codes.OK;
     export.StatusMessage := "" |}.
(** A span with an attribute under the key of the status tag. *)
Definition status_overwritten : export.SpanData :=
  span_test.oc (replicate 8 0) trace.SpanKindClient "/a/b"
    [ {| label.Key := keyStatus; label.Value_ := label.STRING "mine" |} ]
    codes.OK "".
(** An exporter with four global tags, and a span whose attributes have the
    same four keys, each with a value for the same destination. *)
Definition e_four : traceExporter :=
  {| opts :=
       {| opt_Service := "my-service";
          GlobalTags :=
            [ {| label.Key := "key1"; label.Value_ := label.STRING "value1" |};
              {| label.Key := ext.ServiceName;
                 label.Value_ := label.STRING "global-svc" |};
              {| label.Key := ext.Error; label.Value_ := label.BOOL true |};
              {| label.Key := ext.SamplingPriority;
                 label.Value_ := label.INT64 2 |} ] |} |}.

Definition four_local : export.SpanData :=
  span_test.oc (replicate 8 0) trace.SpanKindClient "/a/b"
    [ {| label.Key := "key1"; label.Value_ := label.STRING "local" |};
      {| label.Key := ext.ServiceName;
         label.Value_ := label.STRING "local-svc" |};
      {| label.Key := ext.Error; label.Value_ := label.BOOL false |};
      {| label.Key := ext.SamplingPriority; label.Value_ := label.INT64 0 |} ]
    codes.OK "".
End scenario.

(** The exporter with other global tags. *)
Definition withGlobalTags (e : traceExporter) (tags : list label.KeyValue)
    : traceExporter :=
  {| opts := {| opt_Service := opt_Service (opts e); GlobalTags := tags |} |}.

(** Looks a concrete key up in a map built by insertions. *)
Ltac lookup_status_tags :=
  repeat (rewrite lookup_insert_eq || rewrite lookup_insert_ne by done);
  rewrite ?lookup_empty.

(** ** Further vocabulary for the properties *)

(** A Go [byte]. *)
Definition isByte (x : Z) : Prop := 0 ≤ x < 256.

(** The value of the last String Rule attribute under [key], if any. *)
Definition lastStringValue (key : string) (attrs : list label.KeyValue)
    : option string :=
  last (omap (λ a, if decide (label.Key a = key)
                   then stringValue (label.Value_ a) else None) attrs).

(** The keys that the dispatch rule diverts away from the tags: the error
    key and the five keys of the String Rule. *)
Definition divertedTagKeys : list string :=
  [ext.Error; ext.ServiceName; ext.ResourceName; ext.SpanType;
   ext.AnalyticsEvent; keySpanName].

(** Closes the step condition of an observation of the record: what one
    application of [setTag] makes of it. *)
Ltac last_write_step :=
  intros ? [? val]; cbn;
  unfold setTag, setError, setStringTag, setMetric;
  destruct val as [|[]| | | | | | | |];
  repeat case_decide; cbn; simplify_eq; try done; try congruence.

(** The keys whose destination is shared with another key: the error key
    (the error-message tag), the analytics-event key (the event-sample-rate
    metric) and the sampling-priority key (the renamed metric). *)
Definition aliasedKeys : list string :=
  [ext.Error; ext.AnalyticsEvent; ext.SamplingPriority].

(** The span with other attributes. *)
Definition withAttributes (s : export.SpanData)
    (attrs : list label.KeyValue) : export.SpanData :=
  {| export.TraceID := export.TraceID s;
     export.SpanID := export.SpanID s;
     export.ParentSpanID := export.ParentSpanID s;
     export.SpanKind := export.SpanKind s;
     export.Name := export.Name s;
     export.StartTime := export.StartTime s;
     export.EndTime := export.EndTime s;
     export.Attributes := attrs;
     export.StatusCode := export.StatusCode s;
     export.StatusMessage := export.StatusMessage s |}.

(** The codes of the table whose status is of the 4xx class, and those whose
    status is of the 5xx class. *)
Definition codes4xx : list codes.Code :=
  [codes.Canceled; codes.InvalidArgument; codes.NotFound; codes.AlreadyExists;
   codes.PermissionDenied; codes.ResourceExhausted; codes.FailedPrecondition;
   codes.Aborted; codes.OutOfRange; codes.Unauthenticated].

Definition codes5xx : list codes.Code :=
  [codes.Unknown; codes.DeadlineExceeded; codes.Unimplemented; codes.Internal;
   codes.Unavailable; codes.DataLoss].

(** Closes the step condition of a lookup in one of the two maps. *)
Ltac lookup_step :=
  intros ? [? val]; cbn;
  unfold setTag, setError, setStringTag, setMetric;
  destruct val as [|[]| | | | | | | |];
  repeat case_decide; cbn; simplify_eq;
  rewrite ?lookup_insert_eq; repeat case_decide; try done; try congruence;
  rewrite lookup_insert_ne by first [congruence | done]; done.

(** Proves a disjunction by one of its disjuncts. *)
Ltac solve_or := first [done | left; solve_or | right; solve_or].

(** The [float64] of the last numeric attribute under [key], if any. *)
Definition lastNumericValue (key : string) (attrs : list label.KeyValue)
    : option float :=
  last (omap (λ a, if decide (label.Key a = key)
                   then numericValue (label.Value_ a) else None) attrs).

(** What an attribute stores as the error-message tag: a string under the
    error key, or a String Rule value under the key of the tag itself. *)
Definition errorMsgWrite (a : label.KeyValue) : option string :=
  if decide (label.Key a = ext.Error) then
    match label.Value_ a with
    | label.STRING str => Some str
    | _ => None
    end
  else if decide (label.Key a = ext.ErrorMsg) then stringValue (label.Value_ a)
  else None.

(** What an attribute stores as the renamed sampling-priority metric: a
    numeric value under the sampling-priority key or under the renamed key
    itself. *)
Definition samplingPriorityWrite (a : label.KeyValue) : option float :=
  if decide (label.Key a = ext.SamplingPriority) then
    numericValue (label.Value_ a)
  else if decide (label.Key a = keySamplingPriority) then
    numericValue (label.Value_ a)
  else None.

(** What an attribute stores as the event-sample-rate metric: 0 or 1 for a
    String Rule value under the analytics-event key, or a numeric value
    under the key of the metric itself. *)
Definition eventSampleRateWrite (a : label.KeyValue) : option float :=
  if decide (label.Key a = ext.AnalyticsEvent) then
    match stringValue (label.Value_ a) with
    | Some v => Some (if decide (v = "false") then 0%float else 1%float)
    | None => None
    end
  else if decide (label.Key a = ext.EventSampleRate) then
    numericValue (label.Value_ a)
  else None.

(** Whether two attribute keys can store into a common destination: they
    are the same key, or one of the three pairs of keys with a shared
    destination (the error key and the error-message key, the
    analytics-event key and the event-sample-rate key, the sampling-priority
    key and the renamed key). *)
Definition sharesDestination (k1 k2 : string) : bool :=
  bool_decide (k1 = k2)
  || bool_decide (k1 = ext.Error ∧ k2 = ext.ErrorMsg)
  || bool_decide (k1 = ext.ErrorMsg ∧ k2 = ext.Error)
  || bool_decide (k1 = ext.AnalyticsEvent ∧ k2 = ext.EventSampleRate)
  || bool_decide (k1 = ext.EventSampleRate ∧ k2 = ext.AnalyticsEvent)
  || bool_decide (k1 = ext.SamplingPriority ∧ k2 = keySamplingPriority)
  || bool_decide (k1 = keySamplingPriority ∧ k2 = ext.SamplingPriority).

(** The record holds the value of the attribute [(key, val)] where the
    rules of the specification send it.  Error Rule: the flag of the value,
    and the string as the error-message tag.  String Rule: the rendering in
    the structural field of a reserved key, 0 or 1 as the event-sample-rate
    metric for the analytics-event key, the rendering as the tag of any other
    key.  Metric Rule: the [float64] as the metric of the key, renamed for
    the sampling-priority key.  An invalid value has no destination. *)
Definition destinationHolds (key : string) (val : label.Value)
    (span : ddSpan) : Prop :=
  if decide (key = ext.Error) then
    match val with
    | label.STRING str => Error span = 1 ∧ Meta span !! ext.ErrorMsg = Some str
    | _ => Error span = spec_errorFlag val
    end
  else
    match stringValue val, numericValue val with
    | Some v, _ =>
        if decide (key = ext.ServiceName) then Service span = v
        else if decide (key = ext.ResourceName) then Resource span = v
        else if decide (key = ext.SpanType) then Type_ span = v
        else if decide (key = ext.AnalyticsEvent) then
          Metrics span !! ext.EventSampleRate =
            Some (if decide (v = "false") then 0%float else 1%float)
        else if decide (key = keySpanName) then Name span = v
        else Meta span !! key = Some v
    | None, Some f =>
        Metrics span !! (if decide (key = ext.SamplingPriority)
                         then keySamplingPriority else key) = Some f
    | None, None => True
    end.

(** * Properties *)

(** ** The conversion table of [span_test.go], run *)

Example convert_root :
  convertSpan span_test.e span_test.root_oc =
  span_test.dd 0 "client" "opentelemetry" "/a/b" "my-service" 0
    {[ "int64" := 1%float ]}
    (list_to_map [ ("bool", "true"); ("str", "abc"); (keyStatus, "OK");
                   (keyStatusCode, "0"); (keyStatusDescription, "status-msg") ]).
Proof. vm_compute. reflexivity. Qed.

Example convert_child :
  convertSpan span_test.e
    (span_test.oc [8; 7; 6; 5; 4; 3; 2; 1] trace.SpanKindClient "/a/b" []
       codes.OK "") =
  span_test.dd 578437695752307201 "client" "opentelemetry" "/a/b" "my-service"
    0 ∅ (list_to_map [ (keyStatus, "OK"); (keyStatusCode, "0") ]).
Proof. vm_compute. reflexivity. Qed.

Example convert_server_error_4xx :
  convertSpan span_test.e
    (span_test.status_oc trace.SpanKindServer codes.Canceled) =
  span_test.dd 0 "server" "opentelemetry" "/a/b" "my-service" 0 ∅
    (list_to_map [ (keyStatus, "CANCELLED"); (keyStatusCode, "1");
                   (keyStatusDescription, "status-msg") ]).
Proof. vm_compute. reflexivity. Qed.

Example convert_server_error_5xx :
  convertSpan span_test.e
    (span_test.status_oc trace.SpanKindServer codes.Internal) =
  span_test.dd 0 "server" "opentelemetry" "/a/b" "my-service" 1 ∅
    (list_to_map [ (ext.ErrorMsg, "status-msg"); (ext.ErrorType, "INTERNAL");
                   (keyStatus, "INTERNAL"); (keyStatusCode, "13");
                   (keyStatusDescription, "status-msg") ]).
Proof. vm_compute. reflexivity. Qed.

Example convert_client_error_4xx :
  convertSpan span_test.e
    (span_test.status_oc trace.SpanKindClient codes.Canceled) =
  span_test.dd 0 "client" "opentelemetry" "/a/b" "my-service" 1 ∅
    (list_to_map [ (ext.ErrorMsg, "status-msg"); (ext.ErrorType, "CANCELLED");
                   (keyStatus, "CANCELLED"); (keyStatusCode, "1");
                   (keyStatusDescription, "status-msg") ]).
Proof. vm_compute. reflexivity. Qed.

Example convert_client_error_5xx :
  convertSpan span_test.e
    (span_test.status_oc trace.SpanKindClient codes.Internal) =
  span_test.dd 0 "client" "opentelemetry" "/a/b" "my-service" 0 ∅
    (list_to_map [ (keyStatus, "INTERNAL"); (keyStatusCode, "13");
                   (keyStatusDescription, "status-msg") ]).
Proof. vm_compute. reflexivity. Qed.

Example convert_tags :
  convertSpan span_test.e span_test.tags_oc =
  span_test.dd 0 "other-type" "opentelemetry" "other-resource" "other-service"
    1 {[ keySamplingPriority := float64 ext.PriorityUserReject ]}
    (list_to_map [ (keyStatus, "OK"); (keyStatusCode, "0") ]).
Proof. vm_compute. reflexivity. Qed.

(** The status-code tag of a code from [2 ^ 31] on, by the build. *)
Example status_code_tag_by_build :
  Meta (convertSpan (b := strconv.Build32) span_test.e
          (span_test.status_oc trace.SpanKindServer 4294967295%N))
    !! keyStatusCode = Some "-1" ∧
  Meta (convertSpan (b := strconv.Build64) span_test.e
          (span_test.status_oc trace.SpanKindServer 4294967295%N))
    !! keyStatusCode = Some "4294967295".
Proof. vm_compute. done. Qed.

(** [TestSetError] *)
Example test_setError :
  map (λ val, Error (setError testSpan val))
    [ label.STRING "error"; label.BOOL true; label.BOOL false;
      label.INT64 12; label.INT64 (-1); label.INT64 0; label.FLOAT32 0 ] =
    [1; 1; 0; 1; 0; 0; 1] ∧
  Meta (setError testSpan (label.STRING "error")) !! ext.ErrorMsg =
    Some "error".
Proof. vm_compute. done. Qed.

(** [TestSetStringTag] *)
Example test_setStringTag :
  let span := setStringTag testSpan ext.ServiceName "service" in
  let span := setStringTag span ext.ResourceName "resource" in
  let span := setStringTag span ext.SpanType "type" in
  let span := setStringTag span "key" "val" in
  Service span = "service" ∧ Resource span = "resource" ∧
  Type_ span = "type" ∧ Meta span !! "key" = Some "val".
Proof. vm_compute. done. Qed.

(** [TestSetTag], subtests [bool], [int64] and [float64] *)
Example test_setTag_bool :
  let span := setTag testSpan "key" (label.BOOL true) in
  let span := setTag span "key2" (label.BOOL false) in
  let span1 := setTag span ext.AnalyticsEvent (label.BOOL true) in
  let span0 := setTag span1 ext.AnalyticsEvent (label.BOOL false) in
  Meta span !! "key" = Some "true" ∧ Meta span !! "key2" = Some "false" ∧
  Metrics span1 !! ext.EventSampleRate = Some 1%float ∧
  Metrics span0 !! ext.EventSampleRate = Some 0%float.
Proof. vm_compute. done. Qed.

Example test_setTag_int64 :
  let span := setTag testSpan "key" (label.INT64 12) in
  let span := setTag span ext.SamplingPriority (label.INT64 1) in
  Metrics span !! "key" = Some 12%float ∧
  Metrics span !! keySamplingPriority = Some 1%float.
Proof. vm_compute. done. Qed.

Example test_setTag_float64 :
  let span := setTag testSpan "key" (label.FLOAT64 12) in
  let span := setTag span ext.SamplingPriority (label.FLOAT64 1) in
  let span := setTag span ext.EventSampleRate (label.FLOAT64 0.4) in
  Metrics span !! "key" = Some 12%float ∧
  Metrics span !! keySamplingPriority = Some 1%float ∧
  Metrics span !! ext.EventSampleRate = Some 0.4%float.
Proof. vm_compute. done. Qed.

(** ** Blind writes, proved *)

Lemma setTag_blind (key : string) (val : label.Value) :
  ∃ w, ∀ s, setTag s key val = run w s.
Proof.
  unfold setTag, setError, setStringTag, setMetric.
  destruct val as [|[]| | | | | | | |]; repeat case_decide; blind_witness.
Qed.

Section map_facts.
Context {V : Type}.
Implicit Types (m : gmap string V).

Lemma insert_sandwich m (i j : string) (x y : V) :
  <[i := x]> (<[j := y]> (<[i := x]> m)) = <[i := x]> (<[j := y]> m).
Proof.
  apply map_eq. intros k. rewrite !lookup_insert.
  repeat case_decide; done.
Qed.

Lemma insert_over_empty m (i : string) (x : V) :
  <[i := x]> m = <[i := x]> ∅ ∪ m.
Proof. by rewrite insert_empty, <- insert_union_singleton_l. Qed.
End map_facts.

Lemma run_sandwich (x y : write) (r : ddSpan) :
  run y (run x (run y r)) = run y (run x r).
Proof.
  destruct x, y; cbn; try reflexivity;
    unfold put_Meta, put_Metrics, set_Error; cbn; f_equal;
    try apply insert_sandwich; try apply insert_insert_eq.
Qed.

Lemma run_Meta (w : write) (s : ddSpan) :
  Meta (run w s) = Meta (run w testSpan) ∪ Meta s.
Proof.
  destruct w; cbn; rewrite ?(left_id_L ∅ (∪)); try done;
    apply insert_over_empty.
Qed.

Lemma run_Metrics (w : write) (s : ddSpan) :
  Metrics (run w s) = Metrics (run w testSpan) ∪ Metrics s.
Proof.
  destruct w; cbn; rewrite ?(left_id_L ∅ (∪)); try done;
    apply insert_over_empty.
Qed.

Lemma run_one_map (w : write) (s : ddSpan) :
  Meta (run w s) = Meta s ∨ Metrics (run w s) = Metrics s.
Proof. destruct w; cbn; auto. Qed.

(** ** One application of the dispatch rule *)

Lemma setTag_sandwich (r : ddSpan) (kx ky : string) (vx vy : label.Value) :
  setTag (setTag (setTag r ky vy) kx vx) ky vy = setTag (setTag r kx vx) ky vy.
Proof.
  destruct (setTag_blind kx vx) as [x Hx], (setTag_blind ky vy) as [y Hy].
  rewrite !Hx, !Hy. apply run_sandwich.
Qed.

Lemma setTag_Meta (s : ddSpan) (a : label.KeyValue) :
  Meta (setTag s (label.Key a) (label.Value_ a)) = tagsWritten a ∪ Meta s.
Proof.
  unfold tagsWritten.
  destruct (setTag_blind (label.Key a) (label.Value_ a)) as [w Hw].
  rewrite !Hw. apply run_Meta.
Qed.

Lemma setTag_Metrics (s : ddSpan) (a : label.KeyValue) :
  Metrics (setTag s (label.Key a) (label.Value_ a)) =
  metricsWritten a ∪ Metrics s.
Proof.
  unfold metricsWritten.
  destruct (setTag_blind (label.Key a) (label.Value_ a)) as [w Hw].
  rewrite !Hw. apply run_Metrics.
Qed.

Lemma setTag_one_map (s : ddSpan) (key : string) (val : label.Value) :
  Meta (setTag s key val) = Meta s ∨ Metrics (setTag s key val) = Metrics s.
Proof.
  destruct (setTag_blind key val) as [w Hw]. rewrite Hw. apply run_one_map.
Qed.

Lemma setError_flag (s : ddSpan) (val : label.Value) :
  Error (setError s val) = spec_errorFlag val.
Proof.
  destruct val as [|[]|i|i|i|i| | | |]; cbn;
    try (destruct (Z.ltb_spec 0 i); [rewrite decide_True by lia
                                    |rewrite decide_False by lia]);
    done.
Qed.

Lemma setTag_Error_frame (s : ddSpan) (a : label.KeyValue) :
  writesError a = false →
  Error (setTag s (label.Key a) (label.Value_ a)) = Error s.
Proof.
  unfold writesError. intros Hk%bool_decide_eq_false.
  unfold setTag, setStringTag, setMetric. rewrite decide_False by done.
  destruct (label.Value_ a) as [|[]| | | | | | | |]; repeat case_decide; done.
Qed.

Lemma setTag_Type_assign (s : ddSpan) (a : label.KeyValue) (v : string) :
  label.Key a = ext.SpanType →
  stringValue (label.Value_ a) = Some v →
  Type_ (setTag s (label.Key a) (label.Value_ a)) = v.
Proof.
  intros -> Hv. unfold setTag, setStringTag.
  rewrite decide_False by done.
  destruct (label.Value_ a) as [|[]| | | | | | | |]; cbn in Hv;
    by simplify_eq.
Qed.

Lemma setTag_Type_frame (s : ddSpan) (a : label.KeyValue) :
  writesType a = false →
  Type_ (setTag s (label.Key a) (label.Value_ a)) = Type_ s.
Proof.
  unfold writesType. intros Hw%andb_false_iff.
  unfold setTag, setError, setStringTag, setMetric.
  destruct (label.Value_ a) as [|[]| | | | | | | |]; repeat case_decide;
    try done;
    destruct Hw as [Hw%bool_decide_eq_false|Hw%bool_decide_eq_false];
    try done; destruct Hw; cbn; eauto.
Qed.

Lemma setTag_absorb (r : ddSpan) (key : string) (gv lv : label.Value) :
  sameSlot key gv lv = true →
  setTag (setTag r key gv) key lv = setTag r key lv.
Proof.
  unfold sameSlot, setTag, setError, setStringTag, setMetric.
  destruct (decide (key = ext.Error)).
  - destruct gv as [|[]| | | | | | | |], lv as [|[]| | | | | | | |];
      try discriminate; intros _; repeat case_decide; try reflexivity;
      unfold put_Meta, set_Error; cbn; f_equal; apply insert_insert_eq.
  - destruct gv as [|[]| | | | | | | |], lv as [|[]| | | | | | | |];
      try discriminate; intros _; cbn; repeat case_decide; try reflexivity;
      try congruence;
      unfold put_Meta, put_Metrics; cbn; f_equal; apply insert_insert_eq.
Qed.

(** ** Ranging over an attribute list *)

Lemma setTags_app (l1 l2 : list label.KeyValue) (s : ddSpan) :
  setTags (l1 ++ l2) s = setTags l2 (setTags l1 s).
Proof. apply fold_left_app. Qed.

Lemma setTags_cons (a : label.KeyValue) (l : list label.KeyValue)
    (s : ddSpan) :
  setTags (a :: l) s = setTags l (setTag s (label.Key a) (label.Value_ a)).
Proof. reflexivity. Qed.

Lemma convertSpan_setTags {b : strconv.Build}
    (e : traceExporter) (s : export.SpanData) :
  convertSpan e s =
  setTags (GlobalTags (opts e) ++ export.Attributes s) (statusStep e s).
Proof. unfold convertSpan. by rewrite setTags_app. Qed.

(** A property of the record that every attribute of the list preserves
    holds after the loop when it holds before. *)
Lemma setTags_preserves (P : ddSpan → Prop) (Q : label.KeyValue → Prop)
    (l : list label.KeyValue) :
  (∀ s a, Q a → P s → P (setTag s (label.Key a) (label.Value_ a))) →
  Forall Q l → ∀ s, P s → P (setTags l s).
Proof.
  intros Hstep. induction 1 as [|a l Ha _ IH]; intros s Hs; [done|].
  rewrite setTags_cons. apply IH. by apply Hstep.
Qed.

Lemma setTags_Error_frame (l : list label.KeyValue) (s : ddSpan) :
  Forall (λ a, writesError a = false) l → Error (setTags l s) = Error s.
Proof.
  intros Hl.
  apply (setTags_preserves (λ r, Error r = Error s) _ l) with (2 := Hl);
    [|done].
  intros r a Ha Hr. by rewrite setTag_Error_frame.
Qed.

Lemma setTags_Type_frame (l : list label.KeyValue) (s : ddSpan) :
  Forall (λ a, writesType a = false) l → Type_ (setTags l s) = Type_ s.
Proof.
  intros Hl.
  apply (setTags_preserves (λ r, Type_ r = Type_ s) _ l) with (2 := Hl);
    [|done].
  intros r a Ha Hr. by rewrite setTag_Type_frame.
Qed.

Lemma setTags_Meta_frame (k : string) (l : list label.KeyValue) (s : ddSpan) :
  Forall (λ a, tagsWritten a !! k = None) l →
  Meta (setTags l s) !! k = Meta s !! k.
Proof.
  intros Hl.
  apply (setTags_preserves (λ r, Meta r !! k = Meta s !! k) _ l)
    with (2 := Hl); [|done].
  intros r a Ha Hr. rewrite setTag_Meta. by rewrite lookup_union_r.
Qed.

Lemma setTags_Meta_is_Some (k : string) (l : list label.KeyValue)
    (s : ddSpan) :
  is_Some (Meta (setTags l s) !! k) ↔
  is_Some (Meta s !! k) ∨ ∃ a, a ∈ l ∧ is_Some (tagsWritten a !! k).
Proof.
  revert s. induction l as [|a l IH]; intros s.
  - cbn. split; [auto|]. intros [H|(a & Ha & _)]; [done|].
    by apply elem_of_nil in Ha.
  - rewrite setTags_cons, IH, setTag_Meta, lookup_union_is_Some.
    split.
    + intros [[H|H]|(b & Hb & H)]; [right; exists a|left|right; exists b];
        rewrite ?elem_of_cons; auto.
    + intros [H|(b & [->|Hb]%elem_of_cons & H)]; eauto.
Qed.

Lemma setTags_Metrics_is_Some (k : string) (l : list label.KeyValue)
    (s : ddSpan) :
  is_Some (Metrics (setTags l s) !! k) ↔
  is_Some (Metrics s !! k) ∨ ∃ a, a ∈ l ∧ is_Some (metricsWritten a !! k).
Proof.
  revert s. induction l as [|a l IH]; intros s.
  - cbn. split; [auto|]. intros [H|(a & Ha & _)]; [done|].
    by apply elem_of_nil in Ha.
  - rewrite setTags_cons, IH, setTag_Metrics, lookup_union_is_Some.
    split.
    + intros [[H|H]|(b & Hb & H)]; [right; exists a|left|right; exists b];
        rewrite ?elem_of_cons; auto.
    + intros [H|(b & [->|Hb]%elem_of_cons & H)]; eauto.
Qed.

(** What a later write of [(key, val)] leaves of a record depends only on
    what the same write leaves of it now. *)
Lemma setTags_then_setTag (l : list label.KeyValue) (key : string)
    (val : label.Value) (r r' : ddSpan) :
  setTag r key val = setTag r' key val →
  setTag (setTags l r) key val = setTag (setTags l r') key val.
Proof.
  revert r r'. induction l as [|a l IH]; intros r r' Heq; [done|].
  rewrite !setTags_cons. apply IH.
  rewrite <- (setTag_sandwich r), <- (setTag_sandwich r'). by rewrite Heq.
Qed.

(** ** The status translator *)

Lemma statusCodes_in_table (c : codes.Code) :
  (c <= 16)%N → is_Some (statusCodes !! c).
Proof.
  intros Hc.
  assert (Hcases : In c (map N.of_nat (seq 0 17))).
  { apply in_map_iff. exists (N.to_nat c). split; [lia|].
    apply in_seq. lia. }
  cbn in Hcases.
  repeat (destruct Hcases as [<-|Hcases]; [vm_compute; eauto|]).
  destruct Hcases.
Qed.

Lemma statusCodes_not_in_table (c : codes.Code) :
  (16 < c)%N → statusCodes !! c = None.
Proof.
  intros Hc. unfold statusCodes.
  apply not_elem_of_list_to_map_1. cbn.
  rewrite !elem_of_cons, elem_of_nil.
  unfold codes.OK, codes.Canceled, codes.Unknown, codes.InvalidArgument,
    codes.DeadlineExceeded, codes.NotFound, codes.AlreadyExists,
    codes.PermissionDenied, codes.ResourceExhausted, codes.FailedPrecondition,
    codes.Aborted, codes.OutOfRange, codes.Unimplemented, codes.Internal,
    codes.Unavailable, codes.DataLoss, codes.Unauthenticated.
  lia.
Qed.

(** C6: the status translator is total.  A code of the table resolves to its
    table entry; a code outside the table (exactly the codes above 16)
    resolves to the message ["ERR_CODE_<code>"], with the code in decimal,
    and to the generic server-error status 500, whose class is 5xx. *)
Theorem resolveStatus_total (c : codes.Code) :
  (∀ d, statusCodes !! c = Some d → resolveStatus c = d) ∧
  (statusCodes !! c = None →
     message (resolveStatus c) = "ERR_CODE_" +:+ strconv.FormatInt (Z.of_N c) ∧
     status (resolveStatus c) = http.StatusInternalServerError ∧
     status (resolveStatus c) ÷ 100 = 5) ∧
  (statusCodes !! c = None ↔ (16 < c)%N).
Proof.
  split; [|split].
  - intros d Hd. unfold resolveStatus. by rewrite Hd.
  - intros Hn. unfold resolveStatus. rewrite Hn. cbn. done.
  - split; [|apply statusCodes_not_in_table].
    intros Hn. destruct (decide (c <= 16)%N) as [Hle|]; [|lia].
    destruct (statusCodes_in_table c Hle) as [d Hd]. congruence.
Qed.

Lemma resolveStatus_total_witness :
  resolveStatus codes.DataLoss =
    {| message := "DATA_LOSS"; status := http.StatusNotImplemented |} ∧
  message (resolveStatus 17%N) = "ERR_CODE_17" ∧
  status (resolveStatus 4294967295%N) = 500.
Proof.
  split; [|split].
  - apply (proj1 (resolveStatus_total codes.DataLoss)). reflexivity.
  - apply (proj1 (proj2 (resolveStatus_total 17%N))). reflexivity.
  - apply (proj1 (proj2 (resolveStatus_total 4294967295%N))). reflexivity.
Defined.

(** ** Single applications of the dispatch rule *)

(** C5: under the reserved error key the dispatch rule is the Error Rule, and
    the flag it leaves depends on the value alone: 1 for a string (which is
    also stored as the error-message tag), 1 or 0 for a bool, 1 exactly for a
    strictly positive integer, 0 for an invalid value and 1 for every other
    type.  Nothing else is written. *)
Theorem setTag_error_key (s : ddSpan) (val : label.Value) :
  setTag s ext.Error val = setError s val ∧
  Error (setTag s ext.Error val) = spec_errorFlag val ∧
  Meta (setTag s ext.Error val) =
    match val with
    | label.STRING str => <[ext.ErrorMsg := str]> (Meta s)
    | _ => Meta s
    end ∧
  Metrics (setTag s ext.Error val) = Metrics s.
Proof.
  assert (Hk : setTag s ext.Error val = setError s val).
  { unfold setTag. by rewrite decide_True. }
  rewrite Hk. split; [done|].
  destruct val as [|[]|i|i|i|i| | | |]; cbn;
    try (destruct (Z.ltb_spec 0 i); [rewrite decide_True by lia
                                    |rewrite decide_False by lia]);
    done.
Qed.

(** C8: a string or a bool under the analytics-event key is written as the
    event-sample-rate metric and not as a tag: 0.0 when the rendered value is
    the literal ["false"], 1.0 otherwise; so [true] gives 1.0 and [false]
    gives 0.0. *)
Theorem setTag_analytics_event (s : ddSpan) :
  (∀ str,
     Metrics (setTag s ext.AnalyticsEvent (label.STRING str)) =
       <[ext.EventSampleRate :=
           if decide (str = "false") then 0%float else 1%float]> (Metrics s) ∧
     Meta (setTag s ext.AnalyticsEvent (label.STRING str)) = Meta s) ∧
  (∀ b : bool,
     Metrics (setTag s ext.AnalyticsEvent (label.BOOL b)) =
       <[ext.EventSampleRate := if b then 1%float else 0%float]> (Metrics s) ∧
     Meta (setTag s ext.AnalyticsEvent (label.BOOL b)) = Meta s).
Proof.
  split.
  - intros str. unfold setTag. rewrite decide_False by done. cbn.
    unfold setStringTag. repeat (rewrite decide_False by done).
    rewrite decide_True by done.
    destruct (decide (str = "false")) as [->|Hne].
    + rewrite decide_False by (intros H; by apply H). done.
    + rewrite decide_True by done. done.
  - intros []; done.
Qed.

(** C10: the structural-field overrides and the analytics-event conversion
    belong to the String Rule alone.  A value that does not dispatch to the
    String Rule, under any key but the error key, leaves the service name,
    the resource name, the span type, the operation name, the error flag and
    the tags as they are; an invalid value writes nothing, and a value of a
    numeric type is stored as a metric under the attribute key, the
    sampling-priority key alone being renamed, so under its own key for each
    of the reserved keys of the String Rule. *)
Theorem setTag_numeric (s : ddSpan) (key : string) (val : label.Value) :
  key ≠ ext.Error →
  stringValue val = None →
  Service (setTag s key val) = Service s ∧
  Resource (setTag s key val) = Resource s ∧
  Type_ (setTag s key val) = Type_ s ∧
  Name (setTag s key val) = Name s ∧
  Error (setTag s key val) = Error s ∧
  Meta (setTag s key val) = Meta s ∧
  (val = label.INVALID → setTag s key val = s) ∧
  (∀ f, numericValue val = Some f →
     Metrics (setTag s key val) =
       <[(if decide (key = ext.SamplingPriority) then keySamplingPriority
          else key) := f]> (Metrics s) ∧
     (key ∈ [ext.ServiceName; ext.ResourceName; ext.SpanType; keySpanName;
             ext.AnalyticsEvent] →
      Metrics (setTag s key val) !! key = Some f)).
Proof.
  intros Hk Hv.
  assert (Hs : setTag s key val =
               match numericValue val with
               | Some f => setMetric s key f
               | None => s
               end).
  { unfold setTag. rewrite decide_False by done.
    by destruct val as [|[]| | | | | | | |]. }
  rewrite Hs. unfold setMetric.
  split_and!; try (destruct (numericValue val); repeat case_decide; done).
  - by intros ->.
  - intros f ->. destruct (decide (key = ext.SamplingPriority)) as [->|Hsp].
    + split; [done|]. rewrite !elem_of_cons, elem_of_nil. intros H.
      exfalso. destruct H as [H|[H|[H|[H|[H|H]]]]]; done.
    + split; [done|]. intros _. apply lookup_insert_eq.
Qed.

Lemma setTag_numeric_witness :
  Metrics (setTag (statusStep span_test.e span_test.root_oc) ext.ServiceName
             (label.INT64 7)) !! ext.ServiceName = Some 7%float ∧
  Service (setTag (statusStep span_test.e span_test.root_oc) ext.ServiceName
             (label.INT64 7)) = "my-service".
Proof.
  destruct (setTag_numeric (statusStep span_test.e span_test.root_oc)
              ext.ServiceName (label.INT64 7))
    as (Hsvc & _ & _ & _ & _ & _ & _ & Hm).
  - done.
  - reflexivity.
  - destruct (Hm 7%float) as [_ Hkey]; [reflexivity|].
    split; [apply Hkey; rewrite !elem_of_cons; by left | exact Hsvc].
Defined.

(** ** The record before the attributes are applied *)

Lemma statusStep_Type {b : strconv.Build}
    (e : traceExporter) (s : export.SpanData) :
  Type_ (statusStep e s) =
  match export.SpanKind s with
  | trace.SpanKindClient => "client"
  | trace.SpanKindServer => "server"
  | _ => ""
  end.
Proof.
  unfold statusStep, statusMetaStep, errorMetaStep, kindStep, newSpan.
  destruct (export.SpanKind s); repeat case_decide;
    destruct (trace.IsValid _); reflexivity.
Qed.

Lemma statusStep_Error {b : strconv.Build}
    (e : traceExporter) (s : export.SpanData) :
  Error (statusStep e s) =
  match export.SpanKind s with
  | trace.SpanKindClient =>
      if decide (status (resolveStatus (export.StatusCode s)) ÷ 100 = 4)
      then 1 else 0
  | _ =>
      if decide (status (resolveStatus (export.StatusCode s)) ÷ 100 = 5)
      then 1 else 0
  end.
Proof.
  unfold statusStep, statusMetaStep, errorMetaStep, kindStep, newSpan.
  destruct (export.SpanKind s); repeat case_decide;
    destruct (trace.IsValid _); reflexivity.
Qed.

Lemma statusStep_Metrics {b : strconv.Build}
    (e : traceExporter) (s : export.SpanData) :
  Metrics (statusStep e s) = ∅.
Proof.
  unfold statusStep, statusMetaStep, errorMetaStep, kindStep, newSpan.
  destruct (export.SpanKind s); repeat case_decide;
    destruct (trace.IsValid _); reflexivity.
Qed.

Lemma metaSteps_Error {b : strconv.Build}
    (s : export.SpanData) (code : codeDetails)
    (span : ddSpan) :
  Error (statusMetaStep s code (errorMetaStep s code span)) = Error span.
Proof. unfold statusMetaStep, errorMetaStep. repeat case_decide; done. Qed.

Lemma metaSteps_Meta {b : strconv.Build}
    (s : export.SpanData) (code : codeDetails)
    (span : ddSpan) :
  let msg := export.StatusMessage s in
  Meta span = ∅ →
  Meta (statusMetaStep s code (errorMetaStep s code span)) =
  let m :=
    if decide (Error span = 1) then
      if decide (msg ≠ "")
      then <[ext.ErrorMsg := msg]> (<[ext.ErrorType := message code]> ∅)
      else <[ext.ErrorType := message code]> ∅
    else ∅ in
  let m :=
    <[keyStatus := message code]>
      (<[keyStatusCode := strconv.Itoa (int_ (Z.of_N (export.StatusCode s)))]> m) in
  if decide (msg ≠ "") then <[keyStatusDescription := msg]> m else m.
Proof.
  cbv zeta. intros Hnew. unfold statusMetaStep, errorMetaStep.
  repeat case_decide; cbn; rewrite ?Hnew; done.
Qed.

Lemma kindStep_Meta (kind : trace.SpanKind) (code : codeDetails)
    (span : ddSpan) :
  Meta (kindStep kind code span) = Meta span.
Proof. unfold kindStep. destruct kind; repeat case_decide; done. Qed.

Lemma newSpan_Meta (e : traceExporter) (s : export.SpanData) :
  Meta (newSpan e s) = ∅.
Proof. unfold newSpan. by destruct (trace.IsValid _). Qed.

Lemma statusStep_Meta {b : strconv.Build}
    (e : traceExporter) (s : export.SpanData) :
  let code := resolveStatus (export.StatusCode s) in
  let msg := export.StatusMessage s in
  let span := statusStep e s in
  Meta span !! keyStatusCode =
    Some (strconv.Itoa (int_ (Z.of_N (export.StatusCode s)))) ∧
  Meta span !! keyStatus = Some (message code) ∧
  Meta span !! keyStatusDescription =
    (if decide (msg = "") then None else Some msg) ∧
  Meta span !! ext.ErrorType =
    (if decide (Error span = 1) then Some (message code) else None) ∧
  Meta span !! ext.ErrorMsg =
    (if decide (Error span = 1 ∧ msg ≠ "") then Some msg else None).
Proof.
  cbv zeta. unfold statusStep. cbv zeta.
  rewrite metaSteps_Error, metaSteps_Meta
    by (by rewrite kindStep_Meta, newSpan_Meta).
  cbv zeta. generalize (Error (kindStep (export.SpanKind s)
    (resolveStatus (export.StatusCode s)) (newSpan e s))). intros err.
  destruct (decide (err = 1)) as [Herr|Herr];
    destruct (decide (export.StatusMessage s = "")) as [Hmsg|Hmsg].
  - rewrite !(decide_False (P := export.StatusMessage s ≠ "")) by tauto.
    rewrite decide_False by tauto.
    repeat split; lookup_status_tags; done.
  - rewrite !(decide_True (P := export.StatusMessage s ≠ "")) by done.
    rewrite decide_True by tauto.
    repeat split; lookup_status_tags; done.
  - rewrite !(decide_False (P := export.StatusMessage s ≠ "")) by tauto.
    rewrite decide_False by tauto.
    repeat split; lookup_status_tags; done.
  - rewrite !(decide_True (P := export.StatusMessage s ≠ "")) by done.
    rewrite decide_False by tauto.
    repeat split; lookup_status_tags; done.
Qed.

(** ** The converter *)

(** C3 does not hold for every client span: one with a 4xx-class status and
    the attribute [error = false] is returned with the flag 0. *)
Lemma client_4xx_flag_cleared_by_attribute :
  export.SpanKind scenario.client_4xx_error_false = trace.SpanKindClient ∧
  status (resolveStatus (export.StatusCode scenario.client_4xx_error_false))
    ÷ 100 = 4 ∧
  Error (convertSpan span_test.e scenario.client_4xx_error_false) = 0.
Proof. vm_compute. done. Qed.

(** C3: for a span of client kind the returned record has the span type
    ["client"] unless a String Rule attribute under the span-type key assigns
    it, and, unless an attribute under the error key assigns the flag, the
    error flag is 1 when the resolved status class is 4xx and 0 for every
    other class, 5xx included. *)
Theorem convertSpan_client {b : strconv.Build}
    (e : traceExporter) (s : export.SpanData) :
  let attrs := (GlobalTags (opts e) ++ export.Attributes s)%list in
  export.SpanKind s = trace.SpanKindClient →
  (Forall (λ a, writesType a = false) attrs →
   Type_ (convertSpan e s) = "client") ∧
  (Forall (λ a, writesError a = false) attrs →
   Error (convertSpan e s) =
     if decide (status (resolveStatus (export.StatusCode s)) ÷ 100 = 4)
     then 1 else 0).
Proof.
  cbv zeta. intros Hkind. rewrite convertSpan_setTags. split; intros Hl.
  - rewrite setTags_Type_frame, statusStep_Type by done. by rewrite Hkind.
  - rewrite setTags_Error_frame, statusStep_Error by done. by rewrite Hkind.
Qed.

Lemma convertSpan_client_witness :
  Type_ (convertSpan scenario.e_key1
           (span_test.status_oc trace.SpanKindClient codes.Canceled)) =
    "client" ∧
  Error (convertSpan scenario.e_key1
           (span_test.status_oc trace.SpanKindClient codes.Canceled)) = 1 ∧
  Error (convertSpan scenario.e_key1 span_test.root_oc) = 0.
Proof.
  destruct (convertSpan_client scenario.e_key1
              (span_test.status_oc trace.SpanKindClient codes.Canceled)
              eq_refl) as [Ht He4].
  destruct (convertSpan_client scenario.e_key1 span_test.root_oc eq_refl)
    as [_ He2].
  split; [apply Ht; repeat constructor|].
  split; [apply He4; repeat constructor | apply He2; repeat constructor].
Defined.

(** C4 does not hold for every server span: the span ["tags"] of the test
    table, whose attributes assign the span type, is returned with the type
    ["other-type"]. *)
Lemma server_type_assigned_by_attribute :
  export.SpanKind span_test.tags_oc = trace.SpanKindServer ∧
  Type_ (convertSpan span_test.e span_test.tags_oc) = "other-type" ∧
  Type_ (convertSpan span_test.e span_test.tags_oc) ≠ "server".
Proof. vm_compute. done. Qed.

(** C4: for a span of server kind the status step leaves the span type
    ["server"] and sets the error flag exactly when the resolved status class
    is 5xx, so never for a 4xx class; the returned record keeps that type
    unless a String Rule attribute under the span-type key assigns it, and
    that flag unless an attribute under the error key assigns it. *)
Theorem convertSpan_server {b : strconv.Build}
    (e : traceExporter) (s : export.SpanData) :
  let attrs := (GlobalTags (opts e) ++ export.Attributes s)%list in
  let class := status (resolveStatus (export.StatusCode s)) ÷ 100 in
  export.SpanKind s = trace.SpanKindServer →
  Type_ (statusStep e s) = "server" ∧
  Error (statusStep e s) = (if decide (class = 5) then 1 else 0) ∧
  (class = 4 → Error (statusStep e s) = 0) ∧
  (Forall (λ a, writesType a = false) attrs →
   Type_ (convertSpan e s) = "server") ∧
  (Forall (λ a, writesError a = false) attrs →
   Error (convertSpan e s) = if decide (class = 5) then 1 else 0).
Proof.
  cbv zeta. intros Hkind. rewrite convertSpan_setTags.
  rewrite statusStep_Type, statusStep_Error, Hkind.
  repeat split.
  - intros H4. rewrite decide_False; [done|]. rewrite H4. done.
  - intros Hl. rewrite setTags_Type_frame, statusStep_Type by done.
    by rewrite Hkind.
  - intros Hl. rewrite setTags_Error_frame, statusStep_Error by done.
    by rewrite Hkind.
Qed.

Lemma convertSpan_server_witness :
  Error (statusStep span_test.e
           (span_test.status_oc trace.SpanKindServer codes.Canceled)) = 0 ∧
  Type_ (convertSpan scenario.e_key1
           (span_test.status_oc trace.SpanKindServer codes.Internal)) =
    "server" ∧
  Error (convertSpan scenario.e_key1
           (span_test.status_oc trace.SpanKindServer codes.Internal)) = 1.
Proof.
  destruct (convertSpan_server span_test.e
              (span_test.status_oc trace.SpanKindServer codes.Canceled)
              eq_refl) as (_ & _ & H4 & _ & _).
  destruct (convertSpan_server scenario.e_key1
              (span_test.status_oc trace.SpanKindServer codes.Internal)
              eq_refl) as (_ & _ & _ & Ht & He).
  split; [apply H4; reflexivity|].
  split; [apply Ht; repeat constructor | apply He; repeat constructor].
Defined.

(** C1 does not hold for every span: on the span ["tags"] of the test table
    the attribute [error = true] sets the flag, the status being OK, and
    neither error tag is written. *)
Lemma error_flag_without_error_tags :
  Error (convertSpan span_test.e span_test.tags_oc) = 1 ∧
  Meta (convertSpan span_test.e span_test.tags_oc) !! ext.ErrorType = None ∧
  Meta (convertSpan span_test.e span_test.tags_oc) !! ext.ErrorMsg = None.
Proof. vm_compute. done. Qed.

Lemma int_small {b : strconv.Build} (z : Z) :
  - 2 ^ (strconv.IntSize - 1) ≤ z < 2 ^ (strconv.IntSize - 1) →
  int_ z = z.
Proof.
  intros Hz. unfold int_.
  assert (Hpow : 2 ^ strconv.IntSize = 2 * 2 ^ (strconv.IntSize - 1))
    by (destruct b; reflexivity).
  rewrite Hpow in *. rewrite Z.mod_small; lia.
Qed.

(** C1: every returned record has the status-code and status tags, and the
    status-description tag when the status message is not empty.  Each of
    the three holds what the status step wrote unless a global tag or
    attribute writes that tag: the decimal rendering of the status code
    converted to [int] (the code itself when it is below [2 ^ 31], and on a
    64-bit build for every [uint32] code), the resolved message, and the
    status message.  When no global tag or attribute has the error key, the
    error-type tag is present (with the resolved message) exactly when the
    error flag is 1, unless one of them writes that tag, and the
    error-message tag is present (with the status message) exactly when the
    error flag is 1 and the status message is not empty, unless one of them
    writes that tag. *)
Theorem convertSpan_status_tags {b : strconv.Build} (e : traceExporter)
    (s : export.SpanData) :
  let attrs := (GlobalTags (opts e) ++ export.Attributes s)%list in
  let code := resolveStatus (export.StatusCode s) in
  let msg := export.StatusMessage s in
  let span := convertSpan e s in
  let unwritten (k : string) := Forall (λ a, tagsWritten a !! k = None) attrs in
  let noError := Forall (λ a, writesError a = false) attrs in
  (is_Some (Meta span !! keyStatusCode) ∧
   is_Some (Meta span !! keyStatus) ∧
   (msg ≠ "" → is_Some (Meta span !! keyStatusDescription))) ∧
  (unwritten keyStatusCode →
   Meta span !! keyStatusCode =
     Some (strconv.Itoa (int_ (Z.of_N (export.StatusCode s)))) ∧
   ((export.StatusCode s < 2 ^ 31)%N ∨
    (b = strconv.Build64 ∧ (export.StatusCode s < 2 ^ 32)%N) →
    Meta span !! keyStatusCode =
      Some (strconv.Itoa (Z.of_N (export.StatusCode s))))) ∧
  (unwritten keyStatus → Meta span !! keyStatus = Some (message code)) ∧
  (unwritten keyStatusDescription →
   Meta span !! keyStatusDescription =
     (if decide (msg = "") then None else Some msg)) ∧
  (noError → unwritten ext.ErrorType →
   Meta span !! ext.ErrorType =
     (if decide (Error span = 1) then Some (message code) else None)) ∧
  (noError → unwritten ext.ErrorMsg →
   Meta span !! ext.ErrorMsg =
     (if decide (Error span = 1 ∧ msg ≠ "") then Some msg else None)).
Proof.
  cbv zeta. rewrite convertSpan_setTags.
  destruct (statusStep_Meta e s) as (Hc & Hs & Hd & Ht & Hm).
  split_and!.
  - rewrite setTags_Meta_is_Some, Hc. eauto.
  - rewrite setTags_Meta_is_Some, Hs. eauto.
  - intros Hmsg. rewrite setTags_Meta_is_Some, Hd. left.
    by rewrite decide_False.
  - intros Hl. rewrite setTags_Meta_frame, Hc by done. split; [done|].
    intros Hsmall. rewrite int_small; [done|].
    destruct Hsmall as [Hsmall|[-> Hsmall]]; [destruct b|]; cbn; lia.
  - intros Hl. by rewrite setTags_Meta_frame.
  - intros Hl. by rewrite setTags_Meta_frame.
  - intros He Hl. by rewrite setTags_Error_frame, setTags_Meta_frame.
  - intros He Hl. by rewrite setTags_Error_frame, setTags_Meta_frame.
Qed.

Lemma convertSpan_status_tags_witness :
  (Error (convertSpan scenario.e_key1
            (span_test.status_oc trace.SpanKindClient codes.Canceled)) = 1 ∧
   Meta (convertSpan scenario.e_key1
           (span_test.status_oc trace.SpanKindClient codes.Canceled))
     !! keyStatusCode = Some "1" ∧
   Meta (convertSpan scenario.e_key1
           (span_test.status_oc trace.SpanKindClient codes.Canceled))
     !! ext.ErrorType = Some "CANCELLED" ∧
   Meta (convertSpan scenario.e_key1
           (span_test.status_oc trace.SpanKindClient codes.Canceled))
     !! ext.ErrorMsg = Some "status-msg") ∧
  (Error (convertSpan span_test.e span_test.root_oc) = 0 ∧
   Meta (convertSpan span_test.e span_test.root_oc) !! keyStatus =
     Some "OK" ∧
   Meta (convertSpan span_test.e span_test.root_oc) !! ext.ErrorType = None).
Proof.
  destruct (convertSpan_status_tags scenario.e_key1
              (span_test.status_oc trace.SpanKindClient codes.Canceled))
    as (_ & Hc & _ & _ & Ht & Hm).
  destruct (convertSpan_status_tags span_test.e span_test.root_oc)
    as (_ & _ & Hs' & _ & Ht' & _).
  split; split_and!.
  - reflexivity.
  - apply Hc; [repeat constructor|]. left. reflexivity.
  - apply Ht; repeat constructor.
  - apply Hm; repeat constructor.
  - reflexivity.
  - apply Hs'. repeat constructor.
  - apply Ht'; repeat constructor.
Defined.

(** C2 does not hold for every input: with the global tag [key1 = "value1"]
    of [TestGlobalTags] and the attribute [key1 = 1], the key is returned
    both as a tag and as a metric. *)
Lemma key_in_tags_and_metrics :
  Meta (convertSpan scenario.e_key1 scenario.key1_int64) !! "key1" =
    Some "value1" ∧
  Metrics (convertSpan scenario.e_key1 scenario.key1_int64) !! "key1" =
    Some 1%float.
Proof. vm_compute. done. Qed.

Lemma tagsWritten_own (key : string) (val : label.Value) (v : string) :
  key ∉ divertedTagKeys → stringValue val = Some v →
  tagsWritten {| label.Key := key; label.Value_ := val |} !! key = Some v.
Proof.
  unfold divertedTagKeys. rewrite !not_elem_of_cons.
  intros (? & ? & ? & ? & ? & ? & _) Hv.
  unfold tagsWritten, setTag, setStringTag. cbn.
  rewrite decide_False by done.
  destruct val as [|[]| | | | | | | |]; cbn in Hv; simplify_eq;
    repeat (rewrite decide_False by done); cbn; apply lookup_insert_eq.
Qed.

Lemma metricsWritten_own (key : string) (val : label.Value) (f : float) :
  key ≠ ext.Error → key ≠ ext.SamplingPriority → numericValue val = Some f →
  metricsWritten {| label.Key := key; label.Value_ := val |} !! key = Some f.
Proof.
  intros ? ? Hv. unfold metricsWritten, setTag, setMetric. cbn.
  rewrite decide_False by done.
  destruct val as [|[]| | | | | | | |]; cbn in Hv; simplify_eq;
    rewrite decide_False by done; cbn; apply lookup_insert_eq.
Qed.

(** C2: one application of the dispatch rule writes the tags or the metrics,
    never both; and a key is both a tag and a metric of the returned record
    exactly when it is written as a tag, by the status step or by a global
    tag or attribute, and written as a metric by a global tag or attribute.
    This happens whenever a key that is neither diverted away from the tags
    nor the sampling-priority key is carried with a String Rule value by one
    and with a numeric value by another of the global tags and attributes.
    The conversion neither rejects nor repairs such a pair. *)
Theorem tag_and_metric_keys {b : strconv.Build} (e : traceExporter)
    (s : export.SpanData) :
  let attrs := (GlobalTags (opts e) ++ export.Attributes s)%list in
  (∀ r key val,
     Meta (setTag r key val) = Meta r ∨ Metrics (setTag r key val) = Metrics r) ∧
  (∀ k,
     is_Some (Meta (convertSpan e s) !! k) ∧
     is_Some (Metrics (convertSpan e s) !! k) ↔
     (is_Some (Meta (statusStep e s) !! k) ∨
      ∃ a, a ∈ attrs ∧ is_Some (tagsWritten a !! k)) ∧
     ∃ a, a ∈ attrs ∧ is_Some (metricsWritten a !! k)) ∧
  (∀ key sv nv,
     key ∉ divertedTagKeys → key ≠ ext.SamplingPriority →
     is_Some (stringValue sv) → is_Some (numericValue nv) →
     {| label.Key := key; label.Value_ := sv |} ∈ attrs →
     {| label.Key := key; label.Value_ := nv |} ∈ attrs →
     is_Some (Meta (convertSpan e s) !! key) ∧
     is_Some (Metrics (convertSpan e s) !! key)).
Proof.
  cbv zeta. split; [apply setTag_one_map|].
  assert (Hiff : ∀ k,
     is_Some (Meta (convertSpan e s) !! k) ∧
     is_Some (Metrics (convertSpan e s) !! k) ↔
     (is_Some (Meta (statusStep e s) !! k) ∨
      ∃ a, a ∈ (GlobalTags (opts e) ++ export.Attributes s)%list ∧
           is_Some (tagsWritten a !! k)) ∧
     ∃ a, a ∈ (GlobalTags (opts e) ++ export.Attributes s)%list ∧
          is_Some (metricsWritten a !! k)).
  { intros k.
    rewrite convertSpan_setTags, setTags_Meta_is_Some, setTags_Metrics_is_Some.
    rewrite statusStep_Metrics, lookup_empty.
    split; intros [Ht Hm]; (split; [exact Ht|]).
    - destruct Hm as [[? [=]]|Hm]. exact Hm.
    - by right. }
  split; [exact Hiff|].
  intros key sv nv Hdiv Hsp [v Hv] [f Hf] Hin_s Hin_n.
  apply Hiff. split.
  - right. eexists. split; [exact Hin_s|].
    rewrite (tagsWritten_own key sv v) by done. eauto.
  - eexists. split; [exact Hin_n|].
    unfold divertedTagKeys in Hdiv. rewrite not_elem_of_cons in Hdiv.
    rewrite (metricsWritten_own key nv f) by tauto. eauto.
Qed.

Lemma tag_and_metric_keys_witness :
  is_Some (Meta (convertSpan scenario.e_key1 scenario.key1_int64) !! "key1") ∧
  is_Some
    (Metrics (convertSpan scenario.e_key1 scenario.key1_int64) !! "key1").
Proof.
  destruct (tag_and_metric_keys scenario.e_key1 scenario.key1_int64)
    as (_ & _ & Hboth).
  apply (Hboth "key1" (label.STRING "value1") (label.INT64 1)).
  - unfold divertedTagKeys. rewrite !not_elem_of_cons.
    split_and!; try done; apply not_elem_of_nil.
  - done.
  - by eexists.
  - by eexists.
  - cbn. rewrite !elem_of_cons. by left.
  - cbn. rewrite !elem_of_cons. right. by left.
Defined.

(** C9: the last attribute under the error key, global tags first, decides
    the error flag of the returned record, whatever the status step had set;
    the error-type tag of the status step, and its error-message tag, are
    still in the record, with the values of the status step when no global
    tag or attribute writes them. *)
Theorem error_attribute_overrides {b : strconv.Build}
    (e : traceExporter) (s : export.SpanData)
    (l1 l2 : list label.KeyValue) (val : label.Value) :
  let attrs := (GlobalTags (opts e) ++ export.Attributes s)%list in
  let code := resolveStatus (export.StatusCode s) in
  let msg := export.StatusMessage s in
  attrs = (l1 ++ {| label.Key := ext.Error; label.Value_ := val |} :: l2)%list →
  Forall (λ a, writesError a = false) l2 →
  Error (convertSpan e s) = spec_errorFlag val ∧
  (∀ i : Z, (i ≤ 0)%Z →
        val ∈ [label.BOOL false; label.INT32 i; label.INT64 i;
               label.UINT32 i; label.UINT64 i] →
        Error (convertSpan e s) = 0) ∧
  (Error (statusStep e s) = 1 →
   is_Some (Meta (convertSpan e s) !! ext.ErrorType) ∧
   (msg ≠ "" → is_Some (Meta (convertSpan e s) !! ext.ErrorMsg)) ∧
   (Forall (λ a, tagsWritten a !! ext.ErrorType = None) attrs →
    Meta (convertSpan e s) !! ext.ErrorType = Some (message code)) ∧
   (msg ≠ "" → Forall (λ a, tagsWritten a !! ext.ErrorMsg = None) attrs →
    Meta (convertSpan e s) !! ext.ErrorMsg = Some msg)).
Proof.
  cbv zeta. intros Hattrs Hl2. rewrite convertSpan_setTags.
  assert (Hflag : Error (setTags (GlobalTags (opts e) ++ export.Attributes s)
                           (statusStep e s)) = spec_errorFlag val).
  { rewrite Hattrs, setTags_app, setTags_cons, setTags_Error_frame by done.
    cbn. unfold setTag. rewrite decide_True by done. apply setError_flag. }
  split; [exact Hflag|]. split.
  - intros i Hi Hval. rewrite Hflag.
    rewrite !elem_of_cons, elem_of_nil in Hval.
    destruct Hval as [->|[->|[->|[->|[->|[]]]]]]; cbn; try done;
      by destruct (Z.ltb_spec 0 i); [lia|].
  - intros Herr.
    destruct (statusStep_Meta e s) as (_ & _ & _ & Ht & Hm).
    rewrite decide_True in Ht by done.
    rewrite !setTags_Meta_is_Some. repeat split.
    + left. by rewrite Ht.
    + intros Hmsg. left. rewrite Hm, decide_True by done. eauto.
    + intros Hl. by rewrite setTags_Meta_frame.
    + intros Hmsg Hl. rewrite setTags_Meta_frame, Hm by done.
      by rewrite decide_True.
Qed.

Lemma error_attribute_overrides_witness :
  Error (statusStep span_test.e scenario.server_5xx_error_false) = 1 ∧
  Error (convertSpan span_test.e scenario.server_5xx_error_false) = 0 ∧
  Meta (convertSpan span_test.e scenario.server_5xx_error_false)
    !! ext.ErrorType = Some "INTERNAL" ∧
  Meta (convertSpan span_test.e scenario.server_5xx_error_false)
    !! ext.ErrorMsg = Some "status-msg".
Proof.
  destruct (error_attribute_overrides span_test.e
              scenario.server_5xx_error_false [] [] (label.BOOL false))
    as (He & _ & Ht).
  - reflexivity.
  - constructor.
  - split; [reflexivity|]. split; [exact He|].
    destruct Ht as (_ & _ & Htype & Hmsg); [reflexivity|].
    split.
    + apply Htype. repeat constructor.
    + apply Hmsg; [done | repeat constructor].
Defined.

Lemma tagsWritten_other (a : label.KeyValue) (k : string) :
  label.Key a ≠ k → ¬ (label.Key a = ext.Error ∧ k = ext.ErrorMsg) →
  tagsWritten a !! k = None.
Proof.
  destruct a as [ka val]. cbn. intros Hk He.
  unfold tagsWritten, setTag, setError, setStringTag, setMetric. cbn.
  destruct val as [|[]| | | | | | | |]; repeat case_decide;
    cbn; rewrite ?lookup_empty; try done;
    rewrite lookup_insert_ne, lookup_empty; try done;
    intros <-; tauto.
Qed.

Lemma metricsWritten_other (a : label.KeyValue) (k : string) :
  label.Key a ≠ k →
  ¬ (label.Key a = ext.SamplingPriority ∧ k = keySamplingPriority) →
  ¬ (label.Key a = ext.AnalyticsEvent ∧ k = ext.EventSampleRate) →
  metricsWritten a !! k = None.
Proof.
  destruct a as [ka val]. cbn. intros Hk Hs Ha.
  unfold metricsWritten, setTag, setError, setStringTag, setMetric. cbn.
  destruct val as [|[]| | | | | | | |]; repeat case_decide;
    cbn; rewrite ?lookup_empty; try done;
    rewrite lookup_insert_ne, lookup_empty; try done;
    intros <-; tauto.
Qed.

Lemma setTag_structural_frame (s : ddSpan) (a : label.KeyValue) :
  (label.Key a ≠ ext.ServiceName →
   Service (setTag s (label.Key a) (label.Value_ a)) = Service s) ∧
  (label.Key a ≠ ext.ResourceName →
   Resource (setTag s (label.Key a) (label.Value_ a)) = Resource s) ∧
  (label.Key a ≠ ext.SpanType →
   Type_ (setTag s (label.Key a) (label.Value_ a)) = Type_ s) ∧
  (label.Key a ≠ keySpanName →
   Name (setTag s (label.Key a) (label.Value_ a)) = Name s).
Proof.
  destruct a as [ka val]. cbn.
  unfold setTag, setError, setStringTag, setMetric.
  destruct val as [|[]| | | | | | | |]; repeat case_decide; cbn;
    split_and!; done.
Qed.

Lemma sharesDestination_false (k1 k2 : string) :
  sharesDestination k1 k2 = false →
  k1 ≠ k2 ∧
  ¬ (k1 = ext.Error ∧ k2 = ext.ErrorMsg) ∧
  ¬ (k1 = ext.ErrorMsg ∧ k2 = ext.Error) ∧
  ¬ (k1 = ext.AnalyticsEvent ∧ k2 = ext.EventSampleRate) ∧
  ¬ (k1 = ext.EventSampleRate ∧ k2 = ext.AnalyticsEvent) ∧
  ¬ (k1 = ext.SamplingPriority ∧ k2 = keySamplingPriority) ∧
  ¬ (k1 = keySamplingPriority ∧ k2 = ext.SamplingPriority).
Proof.
  unfold sharesDestination. rewrite !orb_false_iff, !bool_decide_eq_false.
  tauto.
Qed.

(** The attribute just applied is held by the record. *)
Lemma setTag_destinationHolds (r : ddSpan) (key : string)
    (val : label.Value) :
  destinationHolds key val (setTag r key val).
Proof.
  unfold destinationHolds, setTag.
  destruct (decide (key = ext.Error)) as [->|Hk].
  - destruct val; try apply setError_flag.
    cbn. split; [done | apply lookup_insert_eq].
  - unfold setStringTag, setMetric.
    destruct val as [|[]| | | | | | | |]; cbn; repeat case_decide;
      cbn; try done; try congruence; apply lookup_insert_eq.
Qed.

(** An attribute under a key with no destination in common leaves it so. *)
Lemma setTag_destinationHolds_frame (r : ddSpan) (key : string)
    (val : label.Value) (a : label.KeyValue) :
  sharesDestination key (label.Key a) = false →
  destinationHolds key val r →
  destinationHolds key val (setTag r (label.Key a) (label.Value_ a)).
Proof.
  intros (Hne & H1 & H2 & H3 & H4 & H5 & H6)%sharesDestination_false.
  destruct (setTag_structural_frame r a) as (Hsvc & Hres & Hty & Hnm).
  assert (Herr : label.Key a ≠ ext.Error →
            Error (setTag r (label.Key a) (label.Value_ a)) = Error r).
  { intros He. apply setTag_Error_frame. by apply bool_decide_eq_false. }
  assert (Hmeta : ∀ k, label.Key a ≠ k →
            ¬ (label.Key a = ext.Error ∧ k = ext.ErrorMsg) →
            Meta (setTag r (label.Key a) (label.Value_ a)) !! k =
            Meta r !! k).
  { intros k ? ?. rewrite setTag_Meta, lookup_union_r; [done|].
    by apply tagsWritten_other. }
  assert (Hmetrics : ∀ k, label.Key a ≠ k →
            ¬ (label.Key a = ext.SamplingPriority ∧ k = keySamplingPriority) →
            ¬ (label.Key a = ext.AnalyticsEvent ∧ k = ext.EventSampleRate) →
            Metrics (setTag r (label.Key a) (label.Value_ a)) !! k =
            Metrics r !! k).
  { intros k ? ? ?. rewrite setTag_Metrics, lookup_union_r; [done|].
    by apply metricsWritten_other. }
  unfold destinationHolds.
  destruct (decide (key = ext.Error)) as [->|Hk].
  - rewrite Herr by congruence.
    destruct val; try done.
    rewrite Hmeta; [done|..]; intuition congruence.
  - destruct (stringValue val) as [v|]; [|destruct (numericValue val); [|done]];
      repeat case_decide; subst;
      rewrite ?Hsvc, ?Hres, ?Hty, ?Hnm by congruence; try done;
      first [ rewrite Hmetrics; [done|..]; intuition (done || congruence)
            | rewrite Hmeta; [done|..]; intuition congruence ].
Qed.

Lemma setTags_destinationHolds (l : list label.KeyValue) (key : string)
    (val : label.Value) (r : ddSpan) :
  Forall (λ a, sharesDestination key (label.Key a) = false) l →
  destinationHolds key val (setTags l (setTag r key val)).
Proof.
  intros Hl.
  apply (setTags_preserves (destinationHolds key val) _ l) with (2 := Hl).
  - intros s a Ha Hs. by apply setTag_destinationHolds_frame.
  - apply setTag_destinationHolds.
Qed.

(** C7: the returned record is the status-step record after the global tags
    and then the attributes of the span, each list in its order, all through
    [setTag].  When an attribute of the span has the key of a global tag and
    lands in the same destinations, the global tag leaves no trace: the
    record is the one returned without that global tag, and every tag and
    metric that the attribute writes and no later attribute rewrites holds
    the value of the attribute.  In the words of the rules: when no later
    attribute has a key with a destination in common, the record holds the
    value of the attribute where its rule sends it, be it the error flag, a
    structural field, a tag or a metric. *)
Theorem local_attribute_overrides_global_tag {b : strconv.Build}
    (e : traceExporter) (s : export.SpanData)
    (g1 g2 a1 a2 : list label.KeyValue) (key : string)
    (gv lv : label.Value) :
  let global := {| label.Key := key; label.Value_ := gv |} in
  let local := {| label.Key := key; label.Value_ := lv |} in
  GlobalTags (opts e) = (g1 ++ global :: g2)%list →
  export.Attributes s = (a1 ++ local :: a2)%list →
  sameSlot key gv lv = true →
  convertSpan e s =
    setTags (export.Attributes s)
      (setTags (GlobalTags (opts e)) (statusStep e s)) ∧
  convertSpan e s = convertSpan (withGlobalTags e (g1 ++ g2)) s ∧
  (∀ k, is_Some (tagsWritten local !! k) →
        Forall (λ a, tagsWritten a !! k = None) a2 →
        Meta (convertSpan e s) !! k = tagsWritten local !! k) ∧
  (∀ k, is_Some (metricsWritten local !! k) →
        Forall (λ a, metricsWritten a !! k = None) a2 →
        Metrics (convertSpan e s) !! k = metricsWritten local !! k) ∧
  (Forall (λ a, sharesDestination key (label.Key a) = false) a2 →
   destinationHolds key lv (convertSpan e s)).
Proof.
  cbv zeta. intros Hg Ha Hslot. split; [reflexivity|].
  unfold convertSpan. cbn. rewrite Hg, Ha. split; [|split; [|split]]; cycle 3.
  - intros Hl. rewrite (setTags_app a1), setTags_cons. cbn.
    by apply setTags_destinationHolds.
  - assert (Hst : statusStep (withGlobalTags e (g1 ++ g2)) s = statusStep e s)
      by reflexivity.
    rewrite Hst, !setTags_app, !setTags_cons. cbn.
    apply (f_equal (setTags a2)).
    rewrite <- !(setTags_app g2 a1). apply setTags_then_setTag.
    by apply setTag_absorb.
  - intros k [v Hv] Hl.
    rewrite setTags_app, setTags_cons.
    rewrite (setTags_preserves
               (λ r, Meta r !! k = tagsWritten
                  {| label.Key := key; label.Value_ := lv |} !! k)
               (λ a, tagsWritten a !! k = None) a2); [done| |done|].
    + intros r a Hn Hr. rewrite setTag_Meta. by rewrite lookup_union_r.
    + rewrite (setTag_Meta _ {| label.Key := key; label.Value_ := lv |}).
      rewrite Hv. by apply lookup_union_Some_l.
  - intros k [v Hv] Hl.
    rewrite setTags_app, setTags_cons.
    rewrite (setTags_preserves
               (λ r, Metrics r !! k = metricsWritten
                  {| label.Key := key; label.Value_ := lv |} !! k)
               (λ a, metricsWritten a !! k = None) a2); [done| |done|].
    + intros r a Hn Hr. rewrite setTag_Metrics. by rewrite lookup_union_r.
    + rewrite (setTag_Metrics _ {| label.Key := key; label.Value_ := lv |}).
      rewrite Hv. by apply lookup_union_Some_l.
Qed.

Lemma local_attribute_overrides_global_tag_witness :
  (convertSpan scenario.e_key1 scenario.key1_string =
     convertSpan span_test.e scenario.key1_string ∧
   Meta (convertSpan scenario.e_key1 scenario.key1_string) !! "key1" =
     Some "local") ∧
  Meta (convertSpan scenario.e_four scenario.four_local) !! "key1" =
    Some "local" ∧
  Service (convertSpan scenario.e_four scenario.four_local) = "local-svc" ∧
  Error (convertSpan scenario.e_four scenario.four_local) = 0 ∧
  Metrics (convertSpan scenario.e_four scenario.four_local)
    !! keySamplingPriority = Some 0%float.
Proof.
  destruct (local_attribute_overrides_global_tag scenario.e_key1
              scenario.key1_string [] [] [] [] "key1"
              (label.STRING "value1") (label.STRING "local"))
    as (_ & Hsame & Htag & _); [reflexivity..|].
  pose (g := GlobalTags (opts scenario.e_four)).
  pose (a := export.Attributes scenario.four_local).
  destruct (local_attribute_overrides_global_tag scenario.e_four
              scenario.four_local (take 0 g) (drop 1 g) (take 0 a) (drop 1 a)
              "key1" (label.STRING "value1") (label.STRING "local"))
    as (_ & _ & _ & _ & Hkey1); [reflexivity..|].
  destruct (local_attribute_overrides_global_tag scenario.e_four
              scenario.four_local (take 1 g) (drop 2 g) (take 1 a) (drop 2 a)
              ext.ServiceName (label.STRING "global-svc")
              (label.STRING "local-svc"))
    as (_ & _ & _ & _ & Hsvc); [reflexivity..|].
  destruct (local_attribute_overrides_global_tag scenario.e_four
              scenario.four_local (take 2 g) (drop 3 g) (take 2 a) (drop 3 a)
              ext.Error (label.BOOL true) (label.BOOL false))
    as (_ & _ & _ & _ & Herr); [reflexivity..|].
  destruct (local_attribute_overrides_global_tag scenario.e_four
              scenario.four_local (take 3 g) (drop 4 g) (take 3 a) (drop 4 a)
              ext.SamplingPriority (label.INT64 2) (label.INT64 0))
    as (_ & _ & _ & _ & Hsp); [reflexivity..|].
  split_and!.
  - exact Hsame.
  - apply (Htag "key1"); [by eexists | constructor].
  - apply Hkey1. repeat constructor.
  - apply Hsvc. repeat constructor.
  - apply Herr. repeat constructor.
  - apply Hsp. constructor.
Defined.

(** * Further properties of the converter *)

(** ** Identifiers and timing *)

Lemma run_fixed (w : write) (s : ddSpan) :
  TraceID (run w s) = TraceID s ∧ SpanID (run w s) = SpanID s ∧
  ParentID (run w s) = ParentID s ∧ Start (run w s) = Start s ∧
  Duration (run w s) = Duration s.
Proof. by destruct w. Qed.

Lemma setTags_fixed (l : list label.KeyValue) (s : ddSpan) :
  TraceID (setTags l s) = TraceID s ∧ SpanID (setTags l s) = SpanID s ∧
  ParentID (setTags l s) = ParentID s ∧ Start (setTags l s) = Start s ∧
  Duration (setTags l s) = Duration s.
Proof.
  apply (setTags_preserves
           (λ r, TraceID r = TraceID s ∧ SpanID r = SpanID s ∧
                 ParentID r = ParentID s ∧ Start r = Start s ∧
                 Duration r = Duration s) (λ _, True) l); [| |done].
  - intros r a _ Hr.
    destruct (setTag_blind (label.Key a) (label.Value_ a)) as [w ->].
    destruct (run_fixed w r) as (-> & -> & -> & -> & ->). exact Hr.
  - by apply Forall_forall.
Qed.

Lemma statusStep_fixed {b : strconv.Build}
    (e : traceExporter) (s : export.SpanData) :
  TraceID (statusStep e s) = TraceID (newSpan e s) ∧
  SpanID (statusStep e s) = SpanID (newSpan e s) ∧
  ParentID (statusStep e s) = ParentID (newSpan e s) ∧
  Start (statusStep e s) = Start (newSpan e s) ∧
  Duration (statusStep e s) = Duration (newSpan e s).
Proof.
  unfold statusStep, statusMetaStep, errorMetaStep, kindStep.
  generalize (newSpan e s). intros span.
  destruct (export.SpanKind s); repeat case_decide; done.
Qed.

Lemma convertSpan_fixed {b : strconv.Build}
    (e : traceExporter) (s : export.SpanData) :
  TraceID (convertSpan e s) = binary.Uint64 (drop 8 (export.TraceID s)) ∧
  SpanID (convertSpan e s) = binary.Uint64 (export.SpanID s) ∧
  ParentID (convertSpan e s) =
    (if trace.IsValid (export.ParentSpanID s)
     then binary.Uint64 (export.ParentSpanID s) else 0) ∧
  Start (convertSpan e s) = export.StartTime s ∧
  Duration (convertSpan e s) =
    wrap64 (export.EndTime s - export.StartTime s).
Proof.
  rewrite convertSpan_setTags.
  destruct (setTags_fixed (GlobalTags (opts e) ++ export.Attributes s)
              (statusStep e s)) as (-> & -> & -> & -> & ->).
  destruct (statusStep_fixed e s) as (-> & -> & -> & -> & ->).
  unfold newSpan. by destruct (trace.IsValid _).
Qed.

(** X1: the identifiers and the timing of the returned record are those of
    the record literal, whatever the status, the global tags and the
    attributes are: the trace identifier is read from the bytes 8..15 of the
    source identifier, the parent identifier is 0 for an invalid parent, and
    the duration is the [int64] difference of the two instants.  Two spans
    that differ in their status and attributes only get the same five
    fields. *)
Theorem convertSpan_identifiers {b : strconv.Build} (e e' : traceExporter)
    (s : export.SpanData) (attrs : list label.KeyValue) :
  (TraceID (convertSpan e s) = binary.Uint64 (drop 8 (export.TraceID s)) ∧
   SpanID (convertSpan e s) = binary.Uint64 (export.SpanID s) ∧
   ParentID (convertSpan e s) =
     (if trace.IsValid (export.ParentSpanID s)
      then binary.Uint64 (export.ParentSpanID s) else 0) ∧
   Start (convertSpan e s) = export.StartTime s ∧
   Duration (convertSpan e s) =
     wrap64 (export.EndTime s - export.StartTime s)) ∧
  (TraceID (convertSpan e' (withAttributes s attrs)) =
     TraceID (convertSpan e s) ∧
   SpanID (convertSpan e' (withAttributes s attrs)) =
     SpanID (convertSpan e s) ∧
   ParentID (convertSpan e' (withAttributes s attrs)) =
     ParentID (convertSpan e s) ∧
   Start (convertSpan e' (withAttributes s attrs)) =
     Start (convertSpan e s) ∧
   Duration (convertSpan e' (withAttributes s attrs)) =
     Duration (convertSpan e s)).
Proof.
  destruct (convertSpan_fixed e s) as (Ht & Hs & Hp & Hst & Hd).
  destruct (convertSpan_fixed e' (withAttributes s attrs))
    as (Ht' & Hs' & Hp' & Hst' & Hd').
  split; [done|]. rewrite Ht, Hs, Hp, Hst, Hd. done.
Qed.

Lemma wrap64_small (z : Z) : - 2 ^ 63 ≤ z < 2 ^ 63 → wrap64 z = z.
Proof. intros Hz. unfold wrap64. rewrite Z.mod_small; lia. Qed.

(** X2: when the difference of the two instants fits [int64], the duration
    is that difference exactly; a span that ends before it starts gets a
    negative duration. *)
Theorem convertSpan_Duration_exact {b : strconv.Build} (e : traceExporter)
    (s : export.SpanData) :
  - 2 ^ 63 ≤ export.EndTime s - export.StartTime s < 2 ^ 63 →
  Duration (convertSpan e s) = export.EndTime s - export.StartTime s ∧
  (export.EndTime s < export.StartTime s → Duration (convertSpan e s) < 0).
Proof.
  intros Hfit.
  destruct (convertSpan_fixed e s) as (_ & _ & _ & _ & ->).
  rewrite wrap64_small by done. split; [done | lia].
Qed.

Lemma convertSpan_Duration_exact_witness :
  Duration (convertSpan span_test.e scenario.ends_before_start) = -5.
Proof.
  destruct (convertSpan_Duration_exact span_test.e
              scenario.ends_before_start) as [Hd _].
  - vm_compute. split; [discriminate | reflexivity].
  - exact Hd.
Defined.

Lemma Uint64_fold_zero (l : list Z) (acc : Z) :
  fold_left (λ acc x, Z.lor (Z.shiftl acc 8) x) l acc = 0 ↔
  acc = 0 ∧ Forall (λ x, x = 0) l.
Proof.
  revert acc. induction l as [|x l IH]; intros acc; cbn.
  - split; [intros ->; by split | by intros [-> _]].
  - rewrite IH, Z.lor_eq_0_iff, Z.shiftl_eq_0_iff by lia.
    rewrite Forall_cons. tauto.
Qed.

Lemma IsValid_false (id : list Z) :
  trace.IsValid id = false ↔ Forall (λ x, x = 0) id.
Proof.
  unfold trace.IsValid. rewrite negb_false_iff, forallb_forall, Forall_forall.
  split.
  - intros H x Hx%list_elem_of_In. symmetry. by apply Z.eqb_eq, H.
  - intros H x Hx%list_elem_of_In. by rewrite (H x Hx).
Qed.

(** X3: the parent identifier of the returned record is 0 exactly when the
    source marks the parent as invalid, the all-zero identifier. *)
Theorem convertSpan_ParentID_zero {b : strconv.Build}
    (e : traceExporter) (s : export.SpanData) :
  length (export.ParentSpanID s) = 8%nat →
  ParentID (convertSpan e s) = 0 ↔
  trace.IsValid (export.ParentSpanID s) = false.
Proof.
  intros Hlen.
  destruct (convertSpan_fixed e s) as (_ & _ & -> & _).
  destruct (trace.IsValid (export.ParentSpanID s)) eqn:Hvalid.
  - split; [|done]. intros Hz. unfold binary.Uint64 in Hz.
    apply Uint64_fold_zero in Hz as [_ Hz].
    rewrite take_ge in Hz by lia.
    apply IsValid_false in Hz. congruence.
  - done.
Qed.

Lemma convertSpan_ParentID_zero_witness :
  ParentID (convertSpan span_test.e span_test.root_oc) = 0.
Proof.
  apply (convertSpan_ParentID_zero span_test.e span_test.root_oc);
    reflexivity.
Defined.

(** ** The error flag *)

Lemma spec_errorFlag_bit (val : label.Value) :
  spec_errorFlag val = 0 ∨ spec_errorFlag val = 1.
Proof.
  destruct val as [|[]|i|i|i|i| | | |]; cbn; auto;
    destruct (0 <? i)%Z; auto.
Qed.

(** X4: the error flag of the returned record is 0 or 1, whatever the value
    of an error attribute is. *)
Theorem convertSpan_Error_bit {b : strconv.Build}
    (e : traceExporter) (s : export.SpanData) :
  Error (convertSpan e s) = 0 ∨ Error (convertSpan e s) = 1.
Proof.
  rewrite convertSpan_setTags.
  apply (setTags_preserves (λ r, Error r = 0 ∨ Error r = 1) (λ _, True)).
  - intros r a _ Hr. destruct (writesError a) eqn:Hw.
    + apply bool_decide_eq_true in Hw. rewrite Hw. unfold setTag.
      rewrite decide_True by done. rewrite setError_flag.
      apply spec_errorFlag_bit.
    + by rewrite setTag_Error_frame.
  - by apply Forall_forall.
  - rewrite statusStep_Error.
    destruct (export.SpanKind s); case_decide; auto.
Qed.

(** ** Keys that never reach the maps *)

Lemma setTags_Metrics_frame (k : string) (l : list label.KeyValue)
    (s : ddSpan) :
  Forall (λ a, metricsWritten a !! k = None) l →
  Metrics (setTags l s) !! k = Metrics s !! k.
Proof.
  intros Hl.
  apply (setTags_preserves (λ r, Metrics r !! k = Metrics s !! k) _ l)
    with (2 := Hl); [|done].
  intros r a Ha Hr. rewrite setTag_Metrics. by rewrite lookup_union_r.
Qed.

Lemma tagsWritten_diverted (a : label.KeyValue) (k : string) :
  k ∈ divertedTagKeys → tagsWritten a !! k = None.
Proof.
  unfold divertedTagKeys. rewrite !elem_of_cons, elem_of_nil.
  unfold tagsWritten, setTag, setError, setStringTag, setMetric.
  intros Hk.
  destruct (label.Value_ a) as [|[]| | | | | | | |]; repeat case_decide;
    cbn; rewrite ?lookup_empty; try done;
    destruct Hk as [->|[->|[->|[->|[->|[->|[]]]]]]];
    by rewrite lookup_insert_ne, lookup_empty.
Qed.

Lemma metricsWritten_SamplingPriority (a : label.KeyValue) :
  metricsWritten a !! ext.SamplingPriority = None.
Proof.
  unfold metricsWritten, setTag, setError, setStringTag, setMetric.
  destruct (label.Value_ a) as [|[]| | | | | | | |]; repeat case_decide;
    cbn; rewrite ?lookup_empty; try done;
    by rewrite lookup_insert_ne, lookup_empty.
Qed.

Lemma statusStep_Meta_diverted {b : strconv.Build}
    (e : traceExporter) (s : export.SpanData)
    (k : string) :
  k ∈ divertedTagKeys → Meta (statusStep e s) !! k = None.
Proof.
  unfold divertedTagKeys. rewrite !elem_of_cons, elem_of_nil. intros Hk.
  unfold statusStep. cbv zeta.
  rewrite metaSteps_Meta by (by rewrite kindStep_Meta, newSpan_Meta).
  cbv zeta.
  destruct Hk as [->|[->|[->|[->|[->|[->|[]]]]]]];
    repeat case_decide; lookup_status_tags; done.
Qed.

Lemma metricsWritten_Error (a : label.KeyValue) :
  metricsWritten a !! ext.Error = None.
Proof.
  unfold metricsWritten, setTag, setError, setStringTag, setMetric.
  destruct (label.Value_ a) as [|[]| | | | | | | |]; repeat case_decide;
    cbn; rewrite ?lookup_empty; try done;
    by rewrite lookup_insert_ne, lookup_empty.
Qed.

(** X5: the returned record never has a tag under the error key or under one
    of the five keys of the String Rule, and never has a metric under the
    sampling-priority key or under the error key: these keys are always
    diverted. *)
Theorem convertSpan_diverted_keys {b : strconv.Build}
    (e : traceExporter) (s : export.SpanData) :
  (∀ k, k ∈ divertedTagKeys → Meta (convertSpan e s) !! k = None) ∧
  Metrics (convertSpan e s) !! ext.SamplingPriority = None ∧
  Metrics (convertSpan e s) !! ext.Error = None.
Proof.
  rewrite convertSpan_setTags. split_and!.
  - intros k Hk. rewrite setTags_Meta_frame.
    + by apply statusStep_Meta_diverted.
    + apply Forall_forall. intros a _. by apply tagsWritten_diverted.
  - rewrite setTags_Metrics_frame.
    + by rewrite statusStep_Metrics.
    + apply Forall_forall. intros a _.
      apply metricsWritten_SamplingPriority.
  - rewrite setTags_Metrics_frame.
    + by rewrite statusStep_Metrics.
    + apply Forall_forall. intros a _. apply metricsWritten_Error.
Qed.

(** ** The structural fields *)

Section last_write.
Context {A : Type}.
Variable obs : ddSpan → A.
Variable wr : label.KeyValue → option A.
Hypothesis obs_setTag : ∀ s a,
  obs (setTag s (label.Key a) (label.Value_ a)) = default (obs s) (wr a).

(** What is observed after the loop is what the last attribute that writes
    it stored, or what was there before the loop. *)
Lemma setTags_last_write (l : list label.KeyValue) (s : ddSpan) :
  obs (setTags l s) = default (obs s) (last (omap wr l)).
Proof.
  revert s. induction l as [|a l IH]; intros s; [done|].
  rewrite setTags_cons, IH, obs_setTag. cbn.
  destruct (wr a) as [v|]; [|done].
  cbn. rewrite last_cons. by destruct (last _).
Qed.
End last_write.

(** X6: each structural field of the returned record holds the value of the
    last String Rule attribute under its reserved key, global tags first,
    and otherwise what the status step gave it: the configured service, the
    name of the span, the literal ["opentelemetry"], and the type of the
    span kind. *)
Theorem convertSpan_structural_fields {b : strconv.Build} (e : traceExporter)
    (s : export.SpanData) :
  let attrs := (GlobalTags (opts e) ++ export.Attributes s)%list in
  Service (convertSpan e s) =
    default (opt_Service (opts e)) (lastStringValue ext.ServiceName attrs) ∧
  Resource (convertSpan e s) =
    default (export.Name s) (lastStringValue ext.ResourceName attrs) ∧
  Name (convertSpan e s) =
    default "opentelemetry" (lastStringValue keySpanName attrs) ∧
  Type_ (convertSpan e s) =
    default (match export.SpanKind s with
             | trace.SpanKindClient => "client"
             | trace.SpanKindServer => "server"
             | _ => ""
             end) (lastStringValue ext.SpanType attrs).
Proof.
  cbv zeta. rewrite convertSpan_setTags. unfold lastStringValue.
  pose (wr := λ (key : string) (a : label.KeyValue),
          if decide (label.Key a = key) then stringValue (label.Value_ a)
          else None).
  rewrite (setTags_last_write Service (wr ext.ServiceName)),
    (setTags_last_write Resource (wr ext.ResourceName)),
    (setTags_last_write Name (wr keySpanName)),
    (setTags_last_write Type_ (wr ext.SpanType)), statusStep_Type
    by (unfold wr; last_write_step).
  unfold wr.
  assert (Hst : Service (statusStep e s) = opt_Service (opts e) ∧
                Resource (statusStep e s) = export.Name s ∧
                Name (statusStep e s) = "opentelemetry").
  { unfold statusStep, statusMetaStep, errorMetaStep, kindStep, newSpan.
    destruct (export.SpanKind s); repeat case_decide;
      destruct (trace.IsValid _); done. }
  by destruct Hst as (-> & -> & ->).
Qed.

(** ** The order of the attributes *)

Lemma setTag_plain (s : ddSpan) (key : string) (val : label.Value) :
  key ∉ aliasedKeys →
  setTag s key val =
  match stringValue val, numericValue val with
  | Some str, _ => setStringTag s key str
  | None, Some f => put_Metrics key f s
  | None, None => s
  end.
Proof.
  unfold aliasedKeys. rewrite !not_elem_of_cons. intros (He & _ & Hs & _).
  unfold setTag, setMetric. rewrite decide_False by done.
  destruct val as [|[]| | | | | | | |]; cbn; try done;
    by rewrite decide_False.
Qed.

Lemma setTag_commute (s : ddSpan) (k1 k2 : string) (v1 v2 : label.Value) :
  k1 ≠ k2 → k1 ∉ aliasedKeys → k2 ∉ aliasedKeys →
  setTag (setTag s k1 v1) k2 v2 = setTag (setTag s k2 v2) k1 v1.
Proof.
  intros Hne H1 H2. rewrite !setTag_plain by done.
  assert (Ha1 : k1 ≠ ext.AnalyticsEvent).
  { unfold aliasedKeys in H1. rewrite !not_elem_of_cons in H1. tauto. }
  assert (Ha2 : k2 ≠ ext.AnalyticsEvent).
  { unfold aliasedKeys in H2. rewrite !not_elem_of_cons in H2. tauto. }
  unfold setStringTag.
  destruct (stringValue v1), (stringValue v2), (numericValue v1),
    (numericValue v2); repeat case_decide; try congruence; try reflexivity;
    unfold put_Meta, put_Metrics; cbn; f_equal; by apply insert_insert_ne.
Qed.

Lemma setTags_permutation (l l' : list label.KeyValue) (s : ddSpan) :
  l ≡ₚ l' →
  NoDup (label.Key <$> l) →
  Forall (λ a, label.Key a ∉ aliasedKeys) l →
  setTags l s = setTags l' s.
Proof.
  intros Hp. revert s.
  induction Hp as [|x l l' Hp IH|x y l|l l' l'' Hp1 IH1 Hp2 IH2];
    intros s Hnd Hal.
  - done.
  - rewrite !setTags_cons. rewrite fmap_cons in Hnd.
    apply IH; [by apply NoDup_cons_1_2 in Hnd|].
    by apply Forall_cons_1 in Hal as [_ Hal].
  - rewrite !setTags_cons. f_equal. rewrite !fmap_cons in Hnd.
    apply Forall_cons_1 in Hal as [Hy Hal].
    apply Forall_cons_1 in Hal as [Hx _].
    apply setTag_commute; [|done|done].
    apply NoDup_cons_1_1 in Hnd. rewrite not_elem_of_cons in Hnd. tauto.
  - rewrite IH1 by done. apply IH2; by rewrite <- Hp1.
Qed.

(** X7: when the attributes of a span have pairwise distinct keys, none of
    them the error key, the analytics-event key or the sampling-priority key,
    their order does not matter: every reordering of them converts to the
    same record. *)
Theorem convertSpan_attribute_order {b : strconv.Build} (e : traceExporter)
    (s : export.SpanData) (attrs : list label.KeyValue) :
  export.Attributes s ≡ₚ attrs →
  NoDup (label.Key <$> export.Attributes s) →
  Forall (λ a, label.Key a ∉ aliasedKeys) (export.Attributes s) →
  convertSpan e (withAttributes s attrs) = convertSpan e s.
Proof.
  intros Hp Hnd Hal. unfold convertSpan. cbn.
  assert (Hst : statusStep e (withAttributes s attrs) = statusStep e s)
    by reflexivity.
  rewrite Hst. symmetry. by apply setTags_permutation.
Qed.

Lemma convertSpan_attribute_order_witness :
  convertSpan span_test.e
    (withAttributes span_test.root_oc
       (reverse (export.Attributes span_test.root_oc))) =
  convertSpan span_test.e span_test.root_oc.
Proof.
  apply (convertSpan_attribute_order span_test.e span_test.root_oc).
  - apply Permutation_sym, reverse_Permutation.
  - cbn. repeat (constructor; [rewrite ?elem_of_cons, elem_of_nil;
                               intros H; decompose [or] H; done|]).
    constructor.
  - unfold aliasedKeys.
    repeat (constructor; [rewrite ?elem_of_cons, elem_of_nil;
                          intros H; decompose [or] H; done|]).
    constructor.
Defined.

(** ** Applying the attributes again *)

Lemma setTag_idempotent (r : ddSpan) (key : string) (val : label.Value) :
  setTag (setTag r key val) key val = setTag r key val.
Proof.
  destruct (setTag_blind key val) as [w Hw]. rewrite !Hw.
  apply (run_sandwich WSkip w r).
Qed.

Lemma setTags_idempotent (l : list label.KeyValue) (s : ddSpan) :
  setTags l (setTags l s) = setTags l s.
Proof.
  induction l as [|a l IH] using rev_ind; [done|].
  assert (Hsnoc : ∀ r, setTags (l ++ [a]) r =
                       setTag (setTags l r) (label.Key a) (label.Value_ a)).
  { intros r. by rewrite setTags_app. }
  rewrite !Hsnoc.
  rewrite (setTags_then_setTag l _ _ (setTag (setTags l s)
             (label.Key a) (label.Value_ a)) (setTags l s)).
  - by rewrite IH.
  - apply setTag_idempotent.
Qed.

(** X8: applying the global tags and the attributes once more to the
    returned record changes nothing, and neither does a span that lists its
    attributes twice. *)
Theorem convertSpan_attributes_twice {b : strconv.Build} (e : traceExporter)
    (s : export.SpanData) :
  setTags (GlobalTags (opts e) ++ export.Attributes s) (convertSpan e s) =
    convertSpan e s ∧
  convertSpan e
    (withAttributes s (export.Attributes s ++ export.Attributes s)) =
    convertSpan e s.
Proof.
  split.
  - rewrite convertSpan_setTags. apply setTags_idempotent.
  - unfold convertSpan. cbn.
    assert (Hst : ∀ attrs, statusStep e (withAttributes s attrs) =
                           statusStep e s) by reflexivity.
    rewrite Hst, setTags_app. apply setTags_idempotent.
Qed.

(** ** The status codes that raise the error flag *)

Lemma status_class_4 (c : codes.Code) :
  status (resolveStatus c) ÷ 100 = 4 ↔ c ∈ codes4xx.
Proof.
  unfold codes4xx. rewrite !elem_of_cons, elem_of_nil.
  destruct (decide (c <= 16)%N) as [Hle|Hgt].
  - assert (Hcases : In c (map N.of_nat (seq 0 17))).
    { apply in_map_iff. exists (N.to_nat c). split; [lia|].
      apply in_seq. lia. }
    cbn in Hcases.
    repeat (destruct Hcases as [<-|Hcases];
            [vm_compute; split;
             [intros H; first [discriminate H | solve_or]
             |intros H; decompose [or] H; done]|]).
    destruct Hcases.
  - unfold resolveStatus.
    rewrite statusCodes_not_in_table by lia. cbn.
    unfold codes.Canceled, codes.InvalidArgument, codes.NotFound,
      codes.AlreadyExists, codes.PermissionDenied, codes.ResourceExhausted,
      codes.FailedPrecondition, codes.Aborted, codes.OutOfRange,
      codes.Unauthenticated.
    split; [done | lia].
Qed.

Lemma status_class_5 (c : codes.Code) :
  status (resolveStatus c) ÷ 100 = 5 ↔ c ∈ codes5xx ∨ (16 < c)%N.
Proof.
  unfold codes5xx. rewrite !elem_of_cons, elem_of_nil.
  destruct (decide (c <= 16)%N) as [Hle|Hgt].
  - assert (Hcases : In c (map N.of_nat (seq 0 17))).
    { apply in_map_iff. exists (N.to_nat c). split; [lia|].
      apply in_seq. lia. }
    cbn in Hcases.
    repeat (destruct Hcases as [<-|Hcases];
            [vm_compute; split;
             [intros H; first [discriminate H | solve_or]
             |intros H; decompose [or] H; done]|]).
    destruct Hcases.
  - unfold resolveStatus.
    rewrite statusCodes_not_in_table by lia. cbn.
    split; [intros _; right; lia | done].
Qed.

(** X9: without an attribute under the error key, the error flag of the
    returned record is read off the status code and the kind alone.  A client
    span is an error exactly for the ten codes of the table with a 4xx
    status; every other span exactly for the six codes with a 5xx status and
    for the codes outside the table.  The code OK never is. *)
Theorem convertSpan_Error_codes {b : strconv.Build}
    (e : traceExporter) (s : export.SpanData) :
  let attrs := (GlobalTags (opts e) ++ export.Attributes s)%list in
  let c := export.StatusCode s in
  Forall (λ a, writesError a = false) attrs →
  (export.SpanKind s = trace.SpanKindClient →
   Error (convertSpan e s) = 1 ↔ c ∈ codes4xx) ∧
  (export.SpanKind s ≠ trace.SpanKindClient →
   Error (convertSpan e s) = 1 ↔ c ∈ codes5xx ∨ (16 < c)%N) ∧
  (c = codes.OK → Error (convertSpan e s) = 0).
Proof.
  cbv zeta. intros Hl.
  rewrite convertSpan_setTags, setTags_Error_frame, statusStep_Error by done.
  split_and!.
  - intros ->. rewrite <- status_class_4. by case_decide.
  - intros Hk. rewrite <- status_class_5.
    destruct (export.SpanKind s); try done; by case_decide.
  - intros ->. by destruct (export.SpanKind s).
Qed.

Lemma convertSpan_Error_codes_witness :
  Error (convertSpan scenario.e_key1
           (span_test.status_oc trace.SpanKindClient codes.NotFound)) = 1 ∧
  Error (convertSpan scenario.e_key1
           (span_test.status_oc trace.SpanKindServer 99%N)) = 1 ∧
  Error (convertSpan scenario.e_key1 span_test.root_oc) = 0.
Proof.
  destruct (convertSpan_Error_codes scenario.e_key1
              (span_test.status_oc trace.SpanKindClient codes.NotFound))
    as (Hc & _ & _); [repeat constructor|].
  destruct (convertSpan_Error_codes scenario.e_key1
              (span_test.status_oc trace.SpanKindServer 99%N))
    as (_ & Hs & _); [repeat constructor|].
  destruct (convertSpan_Error_codes scenario.e_key1 span_test.root_oc)
    as (_ & _ & Hok); [repeat constructor|].
  split; [|split].
  - apply Hc; [reflexivity|]. unfold codes4xx. rewrite !elem_of_cons. tauto.
  - apply Hs; [discriminate|]. right. reflexivity.
  - apply Hok. reflexivity.
Defined.

(** ** The identifiers as integers *)

Lemma byte_step (acc x : Z) :
  isByte x → Z.lor (Z.shiftl acc 8) x = acc * 256 + x.
Proof.
  intros [Hx0 Hx]. rewrite Z.shiftl_mul_pow2 by lia.
  assert (Hland : Z.land (acc * 2 ^ 8) x = 0).
  { apply Z.bits_inj'. intros n Hn. rewrite Z.land_spec, Z.bits_0.
    destruct (decide (n < 8)) as [Hlt|Hge].
    - by rewrite Z.mul_pow2_bits_low by lia.
    - rewrite (Z.bits_above_log2 x n), andb_false_r; [done|lia|].
      destruct (decide (x = 0)) as [->|]; [cbn; lia|].
      apply Z.log2_lt_pow2; [lia|].
      apply Z.lt_le_trans with (2 ^ 8); [lia|].
      apply Z.pow_le_mono_r; lia. }
  rewrite <- Z.lxor_lor, <- Z.add_nocarry_lxor by done. lia.
Qed.

Lemma Uint64_fold_inj (l l' : list Z) (acc acc' : Z) :
  length l = length l' → Forall isByte l → Forall isByte l' →
  fold_left (λ acc x, Z.lor (Z.shiftl acc 8) x) l acc =
  fold_left (λ acc x, Z.lor (Z.shiftl acc 8) x) l' acc' →
  acc = acc' ∧ l = l'.
Proof.
  revert l' acc acc'.
  induction l as [|x l IH]; intros [|x' l'] acc acc' Hlen Hb Hb' Heq;
    try discriminate; [done|].
  apply Forall_cons_1 in Hb as [Hx Hb].
  apply Forall_cons_1 in Hb' as [Hx' Hb'].
  cbn in Heq. apply IH in Heq as [Hstep ->]; [|cbn in Hlen; lia|done..].
  rewrite !byte_step in Hstep by done.
  unfold isByte in Hx, Hx'. split; [lia|f_equal; lia].
Qed.

Lemma Uint64_fold_range (l : list Z) (acc : Z) :
  Forall isByte l → (0 ≤ acc)%Z →
  (0 ≤ fold_left (λ acc x, Z.lor (Z.shiftl acc 8) x) l acc
     < (acc + 1) * 256 ^ Z.of_nat (length l))%Z.
Proof.
  revert acc. induction l as [|x l IH]; intros acc Hb Hacc.
  - cbn. lia.
  - apply Forall_cons_1 in Hb as [Hx Hb]. cbn [fold_left length].
    rewrite byte_step by done. unfold isByte in Hx.
    specialize (IH (acc * 256 + x) Hb ltac:(lia)).
    rewrite Nat2Z.inj_succ, Z.pow_succ_r by lia. nia.
Qed.

(** X10: the span identifier is converted without loss: it is a [uint64],
    and two spans with the same identifier in their records have the same
    eight bytes. *)
Theorem convertSpan_SpanID_injective {b : strconv.Build} (e e' : traceExporter)
    (s s' : export.SpanData) :
  length (export.SpanID s) = 8%nat → length (export.SpanID s') = 8%nat →
  Forall isByte (export.SpanID s) → Forall isByte (export.SpanID s') →
  (0 ≤ SpanID (convertSpan e s) < 2 ^ 64)%Z ∧
  (SpanID (convertSpan e s) = SpanID (convertSpan e' s') →
   export.SpanID s = export.SpanID s').
Proof.
  intros Hlen Hlen' Hb Hb'.
  destruct (convertSpan_fixed e s) as (_ & -> & _).
  destruct (convertSpan_fixed e' s') as (_ & -> & _).
  unfold binary.Uint64. rewrite !take_ge by lia. split.
  - pose proof (Uint64_fold_range (export.SpanID s) 0 Hb ltac:(lia)) as Hr.
    rewrite Hlen in Hr. change (Z.of_nat 8) with 8 in Hr. lia.
  - intros Heq. by apply Uint64_fold_inj in Heq as [_ ->]; [|lia|..].
Qed.

Lemma convertSpan_SpanID_injective_witness :
  (0 ≤ SpanID (convertSpan span_test.e span_test.root_oc) < 2 ^ 64)%Z.
Proof.
  apply (convertSpan_SpanID_injective span_test.e span_test.e
           span_test.root_oc span_test.root_oc);
    try reflexivity; repeat (constructor; [unfold isByte; lia|]);
    constructor.
Defined.

(** X11: only the bytes 8..15 of the trace identifier reach the record: two
    spans get the same trace identifier exactly when these eight bytes
    agree, whatever their bytes 0..7 are. *)
Theorem convertSpan_TraceID_low_bytes {b : strconv.Build} (e e' : traceExporter)
    (s s' : export.SpanData) :
  length (export.TraceID s) = 16%nat → length (export.TraceID s') = 16%nat →
  Forall isByte (export.TraceID s) → Forall isByte (export.TraceID s') →
  TraceID (convertSpan e s) = TraceID (convertSpan e' s') ↔
  drop 8 (export.TraceID s) = drop 8 (export.TraceID s').
Proof.
  intros Hlen Hlen' Hb Hb'.
  destruct (convertSpan_fixed e s) as (-> & _).
  destruct (convertSpan_fixed e' s') as (-> & _).
  split; [|by intros ->].
  unfold binary.Uint64. rewrite !take_ge by (rewrite length_drop; lia).
  intros Heq. apply Uint64_fold_inj in Heq as [_ Heq]; [done|..].
  - rewrite !length_drop. lia.
  - by apply Forall_drop.
  - by apply Forall_drop.
Qed.

Lemma convertSpan_TraceID_low_bytes_witness :
  TraceID (convertSpan span_test.e span_test.root_oc) =
  TraceID (convertSpan span_test.e scenario.other_high_bytes).
Proof.
  apply (convertSpan_TraceID_low_bytes span_test.e span_test.e
           span_test.root_oc scenario.other_high_bytes);
    try reflexivity; repeat (constructor; [unfold isByte; lia|]);
    constructor.
Defined.

(** ** The tags and the metrics *)

Section last_write_lookup.
Context {A : Type}.
Variable obs : ddSpan → option A.
Variable wr : label.KeyValue → option A.
Hypothesis obs_setTag : ∀ s a,
  obs (setTag s (label.Key a) (label.Value_ a)) =
  match wr a with Some v => Some v | None => obs s end.

Lemma setTags_last_write_lookup (l : list label.KeyValue) (s : ddSpan) :
  obs (setTags l s) =
  match last (omap wr l) with Some v => Some v | None => obs s end.
Proof.
  revert s. induction l as [|a l IH]; intros s; [done|].
  rewrite setTags_cons, IH, obs_setTag. cbn.
  destruct (wr a) as [v|]; [|done].
  cbn. rewrite last_cons. by destruct (last _).
Qed.
End last_write_lookup.

(** X12: under a key that is neither diverted nor the error-message key, the
    tag of the returned record is the rendering of the last String Rule
    attribute under that key, global tags first; without such an attribute
    it is the tag of the status step, if any.  So an attribute under the key
    of a status tag replaces that tag. *)
Theorem convertSpan_tag {b : strconv.Build}
    (e : traceExporter) (s : export.SpanData)
    (k : string) :
  let attrs := (GlobalTags (opts e) ++ export.Attributes s)%list in
  k ∉ divertedTagKeys → k ≠ ext.ErrorMsg →
  Meta (convertSpan e s) !! k =
  match lastStringValue k attrs with
  | Some v => Some v
  | None => Meta (statusStep e s) !! k
  end.
Proof.
  cbv zeta. unfold divertedTagKeys. rewrite !not_elem_of_cons.
  intros (? & ? & ? & ? & ? & ? & _) ?.
  rewrite convertSpan_setTags. unfold lastStringValue.
  apply (setTags_last_write_lookup (λ r, Meta r !! k)). lookup_step.
Qed.

Lemma convertSpan_tag_witness :
  Meta (convertSpan span_test.e scenario.status_overwritten) !! keyStatus =
    Some "mine".
Proof.
  apply (convertSpan_tag span_test.e scenario.status_overwritten keyStatus).
  - unfold divertedTagKeys. rewrite !not_elem_of_cons.
    split_and!; try done; apply not_elem_of_nil.
  - done.
Defined.

(** X13: under a key that is neither the error key nor one of the three
    metric keys with a shared destination, the metric of the returned record
    is the [float64] of the last numeric attribute under that key, global
    tags first, and there is no such metric without such an attribute. *)
Theorem convertSpan_metric {b : strconv.Build}
    (e : traceExporter) (s : export.SpanData)
    (k : string) :
  let attrs := (GlobalTags (opts e) ++ export.Attributes s)%list in
  k ∉ [ext.Error; ext.SamplingPriority; keySamplingPriority;
       ext.EventSampleRate] →
  Metrics (convertSpan e s) !! k = lastNumericValue k attrs.
Proof.
  cbv zeta. rewrite !not_elem_of_cons. intros (? & ? & ? & ? & _).
  rewrite convertSpan_setTags. unfold lastNumericValue.
  rewrite (setTags_last_write_lookup (λ r, Metrics r !! k)
             (λ a, if decide (label.Key a = k)
                   then numericValue (label.Value_ a) else None))
    by lookup_step.
  rewrite statusStep_Metrics, lookup_empty. by destruct (last _).
Qed.

Lemma convertSpan_metric_witness :
  Metrics (convertSpan span_test.e span_test.root_oc) !! "int64" =
    Some 1%float ∧
  Metrics (convertSpan span_test.e span_test.root_oc) !! "str" = None.
Proof.
  split.
  - apply (convertSpan_metric span_test.e span_test.root_oc "int64").
    rewrite !not_elem_of_cons. split_and!; try done; apply not_elem_of_nil.
  - apply (convertSpan_metric span_test.e span_test.root_oc "str").
    rewrite !not_elem_of_cons. split_and!; try done; apply not_elem_of_nil.
Defined.

(** X14: the three destinations that two keys share hold the last value
    stored through either key.  The error-message tag: a string under the
    error key or a String Rule value under the key of the tag, else the tag
    of the status step.  The renamed sampling-priority metric: a numeric
    value under the sampling-priority key or under the renamed key.  The
    event-sample-rate metric: the 0 or 1 of a String Rule value under the
    analytics-event key or a numeric value under the key of the metric. *)
Theorem convertSpan_shared_destinations {b : strconv.Build} (e : traceExporter)
    (s : export.SpanData) :
  let attrs := (GlobalTags (opts e) ++ export.Attributes s)%list in
  Meta (convertSpan e s) !! ext.ErrorMsg =
    match last (omap errorMsgWrite attrs) with
    | Some v => Some v
    | None => Meta (statusStep e s) !! ext.ErrorMsg
    end ∧
  Metrics (convertSpan e s) !! keySamplingPriority =
    last (omap samplingPriorityWrite attrs) ∧
  Metrics (convertSpan e s) !! ext.EventSampleRate =
    last (omap eventSampleRateWrite attrs).
Proof.
  cbv zeta. rewrite convertSpan_setTags. split_and!.
  - apply (setTags_last_write_lookup (λ r, Meta r !! ext.ErrorMsg)).
    unfold errorMsgWrite. lookup_step.
  - rewrite (setTags_last_write_lookup
               (λ r, Metrics r !! keySamplingPriority) samplingPriorityWrite)
      by (unfold samplingPriorityWrite; lookup_step).
    rewrite statusStep_Metrics, lookup_empty. by destruct (last _).
  - rewrite (setTags_last_write_lookup
               (λ r, Metrics r !! ext.EventSampleRate) eventSampleRateWrite)
      by (unfold eventSampleRateWrite; lookup_step).
    rewrite statusStep_Metrics, lookup_empty. by destruct (last _).
Qed.
